(** * Logbook humanization engine (homeassistant/components/logbook/__init__.py)

    A shallow embedding of the event-log humanizer: the row filter
    [_keep_row], the single forward scan [yield_rows] / [_humanify], the
    context augmenter [ContextAugmenter.augment] and the three pass-scoped
    caches ([EntityNameCache], [EventCache], the decoded-payload cache used by
    [LazyEventPartialState]).

    Python objects that the pass mutates (the caches, the context lookup) are
    threaded through a state-and-exception monad; everything the module only
    imports (the state machine, the entity registry, [json.loads],
    [split_entity_id], the describers registered by other integrations, the
    row source) is a field of the record [World]. *)

From Stdlib Require Import ZArith Ascii String List.
From stdpp Require Import base option gmap strings list fin_maps countable.

Local Open Scope string_scope.
Local Open Scope Z_scope.

(* ===================================================================== *)
(** ** Python values *)
(* ===================================================================== *)

(** The values an entry or a decoded payload can hold ([Any]).  Numbers
    are integers: nothing below looks inside a number. *)
#[warnings="-register-all"]
Inductive Value : Type :=
  | VNone
  | VBool (b : bool)
  | VNum (z : Z)
  | VStr (s : string)
  | VList (l : list Value)
  | VDict (kv : list (string * Value)).

(** Python truthiness, as used by [if x:], [x or y], [x and y]. *)
Definition str_truthy (s : string) : bool :=
  match s with EmptyString => false | String _ _ => true end.

Definition truthy (v : Value) : bool :=
  match v with
  | VNone => false
  | VBool b => b
  | VNum z => negb (z =? 0)
  | VStr s => str_truthy s
  | VList l => match l with [] => false | _ :: _ => true end
  | VDict kv => match kv with [] => false | _ :: _ => true end
  end.

(** [x == s] for a string [s]: only an equal string compares equal. *)
Definition value_eq_str (v : Value) (s : string) : bool :=
  match v with VStr t => String.eqb t s | _ => false end.

(** A [dict[str, Any]]: entries, decoded payloads, state attributes. *)
Abbreviation Dict := (gmap string Value).

(** [d.get(k)]: a missing key reads as [None]. *)
Definition dict_get (d : Dict) (k : string) : Value := default VNone (d !! k).

(** An optional string as a value ([None] or a [str]). *)
Definition of_opt_str (o : option string) : Value :=
  match o with Some s => VStr s | None => VNone end.

(** [o] when it is a truthy string (neither [None] nor empty). *)
Definition opt_truthy (o : option string) : option string :=
  match o with
  | Some s => if str_truthy s then Some s else None
  | None => None
  end.

(** [a or b] on optional strings. *)
Definition opt_or (a b : option string) : option string :=
  match opt_truthy a with Some s => Some s | None => b end.

(* ===================================================================== *)
(** ** Imported constants *)
(* ===================================================================== *)

(** Modelled from the spec: the event-type and attribute-name constants are
    imported from [homeassistant.const] and sibling components, which are
    not part of the source at hand; the spec names the kinds only
    (state-changed, service-call, system start/stop, user log entry,
    automation/script trigger).  They are given the string values of those
    modules. *)
Definition EVENT_STATE_CHANGED := "state_changed".
Definition EVENT_CALL_SERVICE := "call_service".
Definition EVENT_HOMEASSISTANT_START := "homeassistant_start".
Definition EVENT_HOMEASSISTANT_STOP := "homeassistant_stop".
Definition EVENT_LOGBOOK_ENTRY := "logbook_entry".
Definition EVENT_AUTOMATION_TRIGGERED := "automation_triggered".
Definition EVENT_SCRIPT_STARTED := "script_started".
Definition HA_DOMAIN := "homeassistant".
Definition SENSOR_DOMAIN := "sensor".
Definition ATTR_STATE_CLASS := "state_class".
Definition ATTR_DOMAIN := "domain".
Definition ATTR_ENTITY_ID := "entity_id".
Definition ATTR_FRIENDLY_NAME := "friendly_name".
Definition ATTR_NAME := "name".
Definition ATTR_SERVICE := "service".

Definition ATTR_MESSAGE := "message".
Definition DOMAIN := "logbook".
Definition HA_DOMAIN_ENTITY_ID := HA_DOMAIN ++ "._".

Definition HOMEASSISTANT_EVENTS : list string :=
  [EVENT_HOMEASSISTANT_START; EVENT_HOMEASSISTANT_STOP].

Definition ALL_EVENT_TYPES_EXCEPT_STATE_CHANGED : list string :=
  EVENT_LOGBOOK_ENTRY :: EVENT_CALL_SERVICE :: HOMEASSISTANT_EVENTS.

Definition SCRIPT_AUTOMATION_EVENTS : list string :=
  [EVENT_AUTOMATION_TRIGGERED; EVENT_SCRIPT_STARTED].

(** [x in xs] for a collection of strings. *)
Definition str_in (x : string) (xs : list string) : bool :=
  existsb (String.eqb x) xs.

(* ===================================================================== *)
(** ** The four extraction patterns *)
(* ===================================================================== *)

(** The double quote, which delimits keys and values in the raw payload. *)
Definition dquote : ascii := Ascii.ascii_of_nat 34.

(** [strip_prefix p s]: what follows [p] in [s], when [s] starts with [p]. *)
Fixpoint strip_prefix (p s : string) : option string :=
  match p with
  | EmptyString => Some s
  | String a p' =>
      match s with
      | String b s' => if Ascii.eqb a b then strip_prefix p' s' else None
      | EmptyString => None
      end
  end.

(** The longest run of characters other than the double quote at the head of
    [s], and what is left: the greedy negated class of the pattern (which
    also takes newlines). *)
Fixpoint span_unquoted (s : string) : string * string :=
  match s with
  | EmptyString => (EmptyString, EmptyString)
  | String a s' =>
      if Ascii.eqb a dquote then (EmptyString, s)
      else let '(run, rest) := span_unquoted s' in (String a run, rest)
  end.

(** One attempt at the head of [s] of the pattern: the quoted key, a colon,
    an optional blank, a quote, one or more characters other than the quote
    (the group), a quote.  After the colon the optional blank is taken when there is one; giving it
    back cannot help, as the next character would have to be the quote.
    Likewise the greedy run stops at the first quote or at the end of the
    string, and no shorter run is followed by a quote. *)
Definition match_here (key s : string) : option string :=
  match strip_prefix (String dquote (key ++ String dquote ":")) s with
  | None => None
  | Some rest =>
      let rest' :=
        match rest with
        | String a r => if Ascii.eqb a " "%char then r else rest
        | EmptyString => rest
        end in
      match rest' with
      | String a r =>
          if Ascii.eqb a dquote then
            match span_unquoted r with
            | (String c run, String _ _) => Some (String c run)
            | _ => None
            end
          else None
      | EmptyString => None
      end
  end.

(** [pattern.search(s)] for the compiled pattern of [key], returning
    [group(1)] of the leftmost match. *)
Fixpoint json_extract (key s : string) : option string :=
  match match_here key s with
  | Some g => Some g
  | None =>
      match s with
      | EmptyString => None
      | String _ s' => json_extract key s'
      end
  end.

Definition FRIENDLY_NAME_JSON_EXTRACT := json_extract "friendly_name".
Definition ENTITY_ID_JSON_EXTRACT := json_extract "entity_id".
Definition DOMAIN_JSON_EXTRACT := json_extract "domain".
Definition ICON_JSON_EXTRACT := json_extract "icon".

(** Helpers to write raw payloads: a quoted string and a one-field object. *)
Definition quoted (s : string) : string := String dquote (s ++ String dquote "").
Definition json_field (k v : string) : string := quoted k ++ ": " ++ quoted v.
Definition json_obj1 (k v : string) : string := "{" ++ json_field k v ++ "}".

(* ===================================================================== *)
(** ** Rows *)
(* ===================================================================== *)

(** The columns of a row that the module reads.  [time_fired] is a
    timestamp in microseconds. *)
Record Row : Type := mkRow {
  event_type : string;
  time_fired : option Z;
  entity_id : option string;
  state : option string;
  context_id : option string;
  context_user_id : option string;
  context_parent_id : option string;
  shared_data : option string;
  event_data : option string;
  shared_attrs : option string;
  attributes : option string;
  context_only : bool;
}.

(** Rows are dictionary keys ([EventCache.event_cache]): a row hashes and
    compares as the sequence of its columns. *)
Definition str_column (o : option string) : option (string + Z) := inl <$> o.
Definition column_str (c : option (string + Z)) : option string :=
  match c with Some (inl s) => Some s | _ => None end.
Definition column_int (c : option (string + Z)) : option Z :=
  match c with Some (inr z) => Some z | _ => None end.

Definition Row_columns (r : Row) : list (option (string + Z)) :=
  [ Some (inl (event_type r)); inr <$> time_fired r; str_column (entity_id r);
    str_column (state r); str_column (context_id r); str_column (context_user_id r);
    str_column (context_parent_id r); str_column (shared_data r);
    str_column (event_data r); str_column (shared_attrs r); str_column (attributes r);
    Some (inr (if context_only r then 1 else 0)) ].

Definition Row_of_columns (cols : list (option (string + Z))) : option Row :=
  match cols with
  | [Some (inl et); tf; eid; st; cid; cuid; cpid; sd; ed; sa; attrs; Some (inr co)] =>
      Some (mkRow et (column_int tf) (column_str eid) (column_str st) (column_str cid)
                  (column_str cuid) (column_str cpid) (column_str sd) (column_str ed)
                  (column_str sa) (column_str attrs) (co =? 1))
  | _ => None
  end.

#[global] Instance Row_eq_dec : EqDecision Row.
Proof. solve_decision. Defined.

#[global] Instance Row_countable : Countable Row.
Proof.
  refine (inj_countable Row_columns Row_of_columns _).
  assert (Hcol : forall o, column_str (str_column o) = o) by (by intros []).
  intros [et tf eid st cid cuid cpid sd ed sa attrs co].
  unfold Row_columns, Row_of_columns;
    cbn [event_type time_fired entity_id state context_id context_user_id
         context_parent_id shared_data event_data shared_attrs attributes context_only].
  rewrite !Hcol.
  f_equal. f_equal; [by destruct tf|by destruct co].
Defined.

(** [row.entity_id], for the places where the source has a local variable
    of the same name. *)
Definition row_entity_id (row : Row) : option string := entity_id row.

(** [_rows_match]: the check of [Event.__hash__]. *)
Definition _rows_match (row other_row : Row) : bool :=
  bool_decide (event_type row = event_type other_row)
  && bool_decide (context_id row = context_id other_row)
  && bool_decide (time_fired row = time_fired other_row).

(** [_row_event_data_extract]: search [shared_data], else [event_data], else
    the empty string. *)
Definition _row_event_data_extract (row : Row) (extractor : string -> option string)
    : option string :=
  extractor (default "" (opt_or (shared_data row) (opt_or (event_data row) (Some "")))).

(** [_row_attributes_extract]: search [shared_attrs], else [attributes], else
    the empty string. *)
Definition _row_attributes_extract (row : Row) (extractor : string -> option string)
    : option string :=
  extractor (default "" (opt_or (shared_attrs row) (opt_or (attributes row) (Some "")))).

(* ===================================================================== *)
(** ** Exceptions and results *)
(* ===================================================================== *)

Inductive Exn : Type :=
  | AssertionError
  | ValueError
  | IndexError
  | JSONDecodeError
  | DescribeError.

Inductive Result (A : Type) : Type :=
  | Ok (a : A)
  | Raise (e : Exn).
Arguments Ok {A} a.
Arguments Raise {A} e.

(* ===================================================================== *)
(** ** The lazy event view and the environment of a pass *)
(* ===================================================================== *)

(** [LazyEventPartialState]: the slots a describer can read.  The private
    slots [_event_data] (always [None]) and [_event_data_cache] (the shared
    dictionary, here a component of the pass state) carry no information. *)
Record LazyEventPartialState : Type := mkLazy {
  lz_row : Row;
  lz_event_type : string;
  lz_entity_id : option string;
  lz_state : option string;
  lz_context_id : option string;
  lz_context_user_id : option string;
  lz_context_parent_id : option string;
  lz_data : Dict;
}.

(** A live state and a registry entry, as far as they are read. *)
Record State : Type := mkState { st_attributes : Dict }.
Record RegistryEntry : Type := mkEntry { capabilities : option Dict }.

(** Modelled from the spec: [homeassistant.components.history.Filters] is
    not part of the source at hand; the spec lists [filters] among the
    inputs of the entry point, which hands it to the query layer and never
    inspects it.  It is given the entity and domain lists of the
    include/exclude configuration. *)
Record Filters : Type := mkFilters {
  included_entities : list string;
  included_domains : list string;
  excluded_entities : list string;
  excluded_domains : list string;
}.

(** The arguments of [statement_for_request]: what the row source is asked. *)
Record Request : Type := mkRequest {
  rq_start_day : Z;
  rq_end_day : Z;
  rq_event_types : list string;
  rq_entity_ids : option (list string);
  rq_filters : option Filters;
  rq_context_id : option string;
}.

(** Everything the module reaches through [hass] or imports.
    - [states_get]: [hass.states.get];
    - [registry_get]: [er.async_get(hass).async_get];
    - [external_events]: [hass.data[DOMAIN]], event type to (domain, describer);
      a describer that raises returns [None];
    - [json_loads]: [json.loads] on a payload, [None] when it raises;
    - [split_entity_id]: [homeassistant.core.split_entity_id];
    - [py_str]: the builtin [str] on values that are not strings;
    - [isoformat], [timestamp], [utcnow]: the two time formats and the clock;
    - [generate_filter]: [entityfilter.generate_filter];
    - [execute]: [session.execute(statement_for_request(...))], the row source. *)
Record World : Type := mkWorld {
  states_get : string -> option State;
  registry_get : string -> option RegistryEntry;
  external_events : gmap string (string * (LazyEventPartialState -> option Dict));
  json_loads : string -> option Dict;
  split_entity_id : string -> Result (string * string);
  py_str : Value -> string;
  isoformat : Z -> Value;
  timestamp : Z -> Value;
  utcnow : Z;
  generate_filter : list string -> list string -> list string -> list string -> string -> bool;
  execute : Request -> list Row;
}.

(** The objects created by [_get_events] and mutated during the pass.
    [loads_calls] is a ghost trace: the arguments of the calls to
    [json.loads], latest first. *)
Record PassState : Type := mkPass {
  names : gmap string Value;
  event_data_cache : gmap string Dict;
  event_cache : gmap Row LazyEventPartialState;
  context_lookup : gmap (option string) (option Row);
  continuous_sensors : gmap string bool;
  loads_calls : list string;
}.

Definition set_names (f : gmap string Value -> gmap string Value) (s : PassState) :=
  mkPass (f (names s)) (event_data_cache s) (event_cache s) (context_lookup s)
         (continuous_sensors s) (loads_calls s).
Definition set_event_cache
    (f : gmap Row LazyEventPartialState -> gmap Row LazyEventPartialState) (s : PassState) :=
  mkPass (names s) (event_data_cache s) (f (event_cache s)) (context_lookup s)
         (continuous_sensors s) (loads_calls s).
Definition set_context_lookup
    (f : gmap (option string) (option Row) -> gmap (option string) (option Row))
    (s : PassState) :=
  mkPass (names s) (event_data_cache s) (event_cache s) (f (context_lookup s))
         (continuous_sensors s) (loads_calls s).
Definition set_continuous_sensors (f : gmap string bool -> gmap string bool) (s : PassState) :=
  mkPass (names s) (event_data_cache s) (event_cache s) (context_lookup s)
         (f (continuous_sensors s)) (loads_calls s).
(** A call [json.loads(source)] that returned [d] and was stored under
    [source]. *)
Definition record_decode (source : string) (d : Dict) (s : PassState) :=
  mkPass (names s) (<[source := d]> (event_data_cache s)) (event_cache s)
         (context_lookup s) (continuous_sensors s) (source :: loads_calls s).

(** The state at the start of [_get_events]: empty caches and
    [context_lookup = {None: None}]. *)
Definition initial_state : PassState :=
  mkPass ∅ ∅ ∅ {[ None := None ]} ∅ [].

(* ===================================================================== *)
(** ** The monad of a pass: state and exceptions *)
(* ===================================================================== *)

Definition M (A : Type) : Type := PassState -> Result (A * PassState).

Definition ret {A} (a : A) : M A := fun s => Ok (a, s).
Definition raise {A} (e : Exn) : M A := fun _ => Raise e.
Definition bind {A B} (m : M A) (k : A -> M B) : M B :=
  fun s => match m s with
           | Ok (a, s') => k a s'
           | Raise e => Raise e
           end.
Definition get_state : M PassState := fun s => Ok (s, s).
Definition modify (f : PassState -> PassState) : M unit := fun s => Ok (tt, f s).
Definition lift {A} (r : Result A) : M A :=
  fun s => match r with Ok a => Ok (a, s) | Raise e => Raise e end.

Declare Scope pass_scope.
Delimit Scope pass_scope with pass.
Notation "'let*' x ':=' c 'in' k" := (bind c (fun x => k))
  (at level 10, x pattern, c at level 100, k at level 200) : pass_scope.
Notation "c ';;' k" := (bind c (fun _ => k))
  (at level 100, k at level 200, right associativity) : pass_scope.
Local Open Scope pass_scope.

(* ===================================================================== *)
(** ** Caches *)
(* ===================================================================== *)

(** Truthiness of a dictionary: non-empty. *)
Definition dict_truthy (d : Dict) : bool := negb (size d =? 0)%nat.

Definition is_none (v : Value) : bool :=
  match v with VNone => true | _ => false end.

(** [LazyEventPartialState.__init__].  [source] is [shared_data or
    event_data]; the cache is consulted with a truthiness test; on a miss
    [json.loads] is called and its result stored under [source]. *)
Definition LazyEventPartialState_init (w : World) (row : Row) : M LazyEventPartialState :=
  let view := mkLazy row (event_type row) (entity_id row) (state row) (context_id row)
                     (context_user_id row) (context_parent_id row) in
  match opt_truthy (opt_or (shared_data row) (event_data row)) with
  | None => ret (view ∅)
  | Some source =>
      let* s := get_state in
      match event_data_cache s !! source with
      | Some cached =>
          if dict_truthy cached then ret (view cached)
          else
            match json_loads w source with
            | Some d => modify (record_decode source d);; ret (view d)
            | None => raise JSONDecodeError
            end
      | None =>
          match json_loads w source with
          | Some d => modify (record_decode source d);; ret (view d)
          | None => raise JSONDecodeError
          end
      end
  end.

(** [EventCache.get]: one view per row. *)
Definition EventCache_get (w : World) (row : Row) : M LazyEventPartialState :=
  let* s := get_state in
  match event_cache s !! row with
  | Some event => ret event
  | None =>
      let* event := LazyEventPartialState_init w row in
      modify (set_event_cache <[row := event]>);;
      ret event
  end.

(** [current_state.attributes.get(ATTR_FRIENDLY_NAME)] of the live state,
    when there is a live state and the name is truthy. *)
Definition live_friendly_name (w : World) (entity_id : string) : option Value :=
  match states_get w entity_id with
  | Some current_state =>
      let friendly_name := dict_get (st_attributes current_state) ATTR_FRIENDLY_NAME in
      if truthy friendly_name then Some friendly_name else None
  | None => None
  end.

(** [object_id.replace("_", " ")] with the underscore and blank of the source. *)
Fixpoint replace_underscore (s : string) : string :=
  match s with
  | EmptyString => EmptyString
  | String a s' =>
      String (if Ascii.eqb a "_"%char then " "%char else a) (replace_underscore s')
  end.

(** [EntityNameCache.get]. *)
Definition EntityNameCache_get (w : World) (entity_id : string) (row : Row) : M Value :=
  let* s := get_state in
  match names s !! entity_id with
  | Some name => ret name
  | None =>
      match live_friendly_name w entity_id with
      | Some friendly_name =>
          modify (set_names <[entity_id := friendly_name]>);; ret friendly_name
      | None =>
          match opt_truthy (_row_attributes_extract row FRIENDLY_NAME_JSON_EXTRACT) with
          | Some extracted_name =>
              modify (set_names <[entity_id := VStr extracted_name]>);;
              ret (VStr extracted_name)
          | None =>
              let* parts := lift (split_entity_id w entity_id) in
              ret (VStr (replace_underscore (snd parts)))
          end
      end
  end.

(** [_is_sensor_continuous]. *)
Definition _is_sensor_continuous (w : World) (entity_id : string) : bool :=
  match registry_get w entity_id with
  | None => false
  | Some entry =>
      match capabilities entry with
      | None => false
      | Some caps => negb (is_none (dict_get caps ATTR_STATE_CLASS))
      end
  end.

(* ===================================================================== *)
(** ** Row filter *)
(* ===================================================================== *)

(** [entities_filter is None or entities_filter(entity_id)]. *)
Definition filter_accepts (entities_filter : option (string -> bool)) (entity_id : string) : bool :=
  match entities_filter with
  | None => true
  | Some f => f entity_id
  end.

(** [_keep_row]. *)
Definition _keep_row (w : World) (event_type : string) (row : Row)
    (entities_filter : option (string -> bool)) : bool :=
  if str_in event_type HOMEASSISTANT_EVENTS then
    filter_accepts entities_filter HA_DOMAIN_ENTITY_ID
  else
    match opt_truthy (_row_event_data_extract row ENTITY_ID_JSON_EXTRACT) with
    | Some entity_id => filter_accepts entities_filter entity_id
    | None =>
        let domain :=
          match external_events w !! event_type with
          | Some described => Some (fst described)
          | None => _row_event_data_extract row DOMAIN_JSON_EXTRACT
          end in
        match domain with
        | Some domain => filter_accepts entities_filter (domain ++ "._")
        | None => false
        end
    end.

(* ===================================================================== *)
(** ** Context augmenter *)
(* ===================================================================== *)

(** [context_lookup.get(key)] as the source tests it: a missing key and the
    sentinel [None -> None] both read as [None]; a row is truthy. *)
Definition lookup_row (s : PassState) (key : option string) : option Row :=
  match context_lookup s !! key with
  | Some (Some row) => Some row
  | _ => None
  end.

(** The first statement of [augment]: copy a truthy context user id. *)
Definition with_context_user (data : Dict) (row : Row) : Dict :=
  match opt_truthy (context_user_id row) with
  | Some context_user_id => <["context_user_id" := VStr context_user_id]> data
  | None => data
  end.

(** The row the entry is attributed to, if any: the looked-up row, or, when
    that row matches [row] itself, the parent's row unless it is missing or
    matches [row] too. *)
Definition effective_context_row (s : PassState) (row : Row) : option Row :=
  match lookup_row s (context_id row) with
  | None => None
  | Some context_row =>
      if _rows_match row context_row then
        match opt_truthy (context_parent_id row) with
        | None => None
        | Some _ =>
            match lookup_row s (context_parent_id row) with
            | None => None
            | Some parent_row =>
                if _rows_match row parent_row then None else Some parent_row
            end
        end
      else Some context_row
  end.

(** [ContextAugmenter.augment] after the effective context row is known. *)
Definition augment_from (w : World) (data : Dict) (entity_id : Value)
    (context_row : Row) : M Dict :=
  let event_type := event_type context_row in
  match opt_truthy (row_entity_id context_row) with
  | Some context_entity_id =>
      let data := <["context_entity_id" := VStr context_entity_id]> data in
      let* name := EntityNameCache_get w context_entity_id context_row in
      let data := <["context_entity_id_name" := name]> data in
      ret (<["context_event_type" := VStr event_type]> data)
  | None =>
      if String.eqb event_type EVENT_CALL_SERVICE then
        let* event := EventCache_get w context_row in
        let event_data := lz_data event in
        let data := <["context_domain" := dict_get event_data ATTR_DOMAIN]> data in
        let data := <["context_service" := dict_get event_data ATTR_SERVICE]> data in
        ret (<["context_event_type" := VStr event_type]> data)
      else if negb (truthy entity_id) then ret data
      else
        match _row_event_data_extract context_row ENTITY_ID_JSON_EXTRACT with
        | None => ret data
        | Some attr_entity_id =>
            if str_in event_type SCRIPT_AUTOMATION_EVENTS
               && value_eq_str entity_id attr_entity_id
            then ret data
            else
              let data := <["context_entity_id" := VStr attr_entity_id]> data in
              let* name := EntityNameCache_get w attr_entity_id context_row in
              let data := <["context_entity_id_name" := name]> data in
              let data := <["context_event_type" := VStr event_type]> data in
              match external_events w !! event_type with
              | None => ret data
              | Some (domain, describe_event) =>
                  let data := <["context_domain" := VStr domain]> data in
                  let* event := EventCache_get w context_row in
                  match describe_event event with
                  | None => raise DescribeError
                  | Some described =>
                      let name := dict_get described ATTR_NAME in
                      if truthy name then ret (<["context_name" := name]> data)
                      else ret data
                  end
              end
        end
  end.

(** [ContextAugmenter.augment]: the entry is mutated in place, so the
    augmented entry is the result. *)
Definition augment (w : World) (data : Dict) (entity_id : Value) (row : Row) : M Dict :=
  let data := with_context_user data row in
  let* s := get_state in
  match effective_context_row s row with
  | None => ret data
  | Some context_row => augment_from w data entity_id context_row
  end.

(* ===================================================================== *)
(** ** The forward scan *)
(* ===================================================================== *)

(** [dict.setdefault(key, value)]. *)
Definition setdefault {K V} `{Countable K} (key : K) (value : V) (m : gmap K V) : gmap K V :=
  match m !! key with
  | Some _ => m
  | None => <[key := value]> m
  end.

(** One iteration of the loop of [yield_rows]: index the row by its context
    id, then decide whether it is yielded. *)
Definition yield_rows_step (w : World) (entities_filter : option (string -> bool))
    (row : Row) : M bool :=
  modify (set_context_lookup (setdefault (context_id row) (Some row)));;
  if context_only row then ret false
  else
    let event_type := event_type row in
    ret (negb (String.eqb event_type EVENT_CALL_SERVICE)
         && (String.eqb event_type EVENT_STATE_CHANGED
             || _keep_row w event_type row entities_filter)).

(** [_row_time_fired_isoformat] and [_row_time_fired_timestamp]. *)
Definition _row_time_fired_isoformat (w : World) (row : Row) : Value :=
  isoformat w (default (utcnow w) (time_fired row)).
Definition _row_time_fired_timestamp (w : World) (row : Row) : Value :=
  timestamp w (default (utcnow w) (time_fired row)).

(** The fixed entry of a system start or stop. *)
Definition lifecycle_entry (when : Value) (message : string) : Dict :=
  <["domain" := VStr HA_DOMAIN]>
    (<["message" := VStr message]>
      (<["name" := VStr "Home Assistant"]> (<["when" := when]> ∅))).

(** The walrus test of [_humanify]: the memoized classification, computed
    and stored on a miss for an entity of the sensor domain. *)
Definition classify_continuous (w : World) (entity_id : string) : M (option bool) :=
  let* s := get_state in
  match continuous_sensors s !! entity_id with
  | Some is_continuous => ret (Some is_continuous)
  | None =>
      let* parts := lift (split_entity_id w entity_id) in
      if String.eqb (fst parts) SENSOR_DOMAIN then
        let is_continuous := _is_sensor_continuous w entity_id in
        modify (set_continuous_sensors <[entity_id := is_continuous]>);;
        ret (Some is_continuous)
      else ret None
  end.

(** [str(x)]. *)
Definition str_of (w : World) (v : Value) : string :=
  match v with VStr s => s | _ => py_str w v end.

(** The entry of a state-changed row, before it is augmented. *)
Definition state_changed_data (when name : Value) (entity_id : string) (row : Row) : Dict :=
  let data : Dict :=
    <["entity_id" := VStr entity_id]>
      (<["state" := of_opt_str (state row)]>
        (<["name" := name]> (<["when" := when]> ∅))) in
  match opt_truthy (_row_attributes_extract row ICON_JSON_EXTRACT) with
  | Some icon => <["icon" := VStr icon]> data
  | None => data
  end.

(** One iteration of the loop of [_humanify]: the entries yielded for [row]
    (none or one). *)
Definition _humanify_row (w : World) (format_time : Row -> Value) (row : Row)
    : M (list Dict) :=
  let event_type := event_type row in
  if String.eqb event_type EVENT_STATE_CHANGED then
    match row_entity_id row with
    | None => raise AssertionError
    | Some entity_id =>
        let* is_continuous := classify_continuous w entity_id in
        if default false is_continuous then ret []
        else
          let when := format_time row in
          let* name := EntityNameCache_get w entity_id row in
          let data := state_changed_data when name entity_id row in
          let* data := augment w data (VStr entity_id) row in
          ret [data]
    end
  else
    match external_events w !! event_type with
    | Some (domain, describe_event) =>
        let* event := EventCache_get w row in
        match describe_event event with
        | None => raise DescribeError
        | Some data =>
            let data := <["when" := format_time row]> data in
            let data := <["domain" := VStr domain]> data in
            let* data := augment w data (dict_get data ATTR_ENTITY_ID) row in
            ret [data]
        end
    | None =>
        if String.eqb event_type EVENT_HOMEASSISTANT_START then
          ret [lifecycle_entry (format_time row) "started"]
        else if String.eqb event_type EVENT_HOMEASSISTANT_STOP then
          ret [lifecycle_entry (format_time row) "stopped"]
        else if String.eqb event_type EVENT_LOGBOOK_ENTRY then
          let* event := EventCache_get w row in
          let event_data := lz_data event in
          let domain := dict_get event_data ATTR_DOMAIN in
          let entity_id := dict_get event_data ATTR_ENTITY_ID in
          let* domain :=
            if is_none domain && negb (is_none entity_id) then
              match split_entity_id w (str_of w entity_id) with
              | Ok parts => ret (VStr (fst parts))
              | Raise IndexError => ret domain
              | Raise e => raise e
              end
            else ret domain in
          let data : Dict :=
            <["entity_id" := entity_id]>
              (<["domain" := domain]>
                (<["message" := dict_get event_data ATTR_MESSAGE]>
                  (<["name" := dict_get event_data ATTR_NAME]>
                    (<["when" := format_time row]> ∅)))) in
          let* data := augment w data entity_id row in
          ret [data]
        else ret []
    end.

(** One row through both generators: [yield_rows] indexes and filters it,
    [_humanify] converts it when it was yielded. *)
Definition process_row (w : World) (entities_filter : option (string -> bool))
    (format_time : Row -> Value) (row : Row) : M (list Dict) :=
  let* yielded := yield_rows_step w entities_filter row in
  if yielded then _humanify_row w format_time row else ret [].

(** [list(_humanify(..., yield_rows(rows), ...))]: the generators interleave,
    so each row is indexed, filtered and converted before the next is
    pulled. *)
Fixpoint humanify_rows (w : World) (entities_filter : option (string -> bool))
    (format_time : Row -> Value) (rows : list Row) : M (list Dict) :=
  match rows with
  | [] => ret []
  | row :: rest =>
      let* out := process_row w entities_filter format_time row in
      let* outs := humanify_rows w entities_filter format_time rest in
      ret (out ++ outs)%list
  end.

(** Truthiness of [entity_ids] (a list or [None]) and of [context_id]. *)
Definition ids_truthy (entity_ids : option (list string)) : bool :=
  match entity_ids with
  | Some (_ :: _) => true
  | _ => false
  end.

Definition ctx_truthy (context_id : option string) : bool :=
  match opt_truthy context_id with Some _ => true | None => false end.

(** [_get_events]. *)
Definition _get_events (w : World) (start_day end_day : Z)
    (entity_ids : option (list string)) (filters : option Filters)
    (entities_filter : option (string -> bool)) (context_id : option string)
    (timestamp : bool) : Result (list Dict) :=
  if ids_truthy entity_ids && ctx_truthy context_id then Raise AssertionError
  else
    let event_types :=
      (ALL_EVENT_TYPES_EXCEPT_STATE_CHANGED ++ map fst (map_to_list (external_events w)))%list in
    let format_time :=
      if timestamp then _row_time_fired_timestamp w else _row_time_fired_isoformat w in
    let entities_filter :=
      match entity_ids with
      | Some ids => Some (generate_filter w [] ids [] [])
      | None => entities_filter
      end in
    let rows :=
      execute w (mkRequest start_day end_day event_types entity_ids filters context_id) in
    match humanify_rows w entities_filter format_time rows initial_state with
    | Ok (entries, _) => Ok entries
    | Raise e => Raise e
    end.

(* ===================================================================== *)
(** ** Vocabulary of the properties *)
(* ===================================================================== *)

(** [cache_step s s']: the step from [s] to [s'] may fill caches; it only
    adds names, and it leaves the context lookup and the sensor
    classification as they are. *)
Definition cache_step (s s' : PassState) : Prop :=
  names s ⊆ names s'
  /\ context_lookup s' = context_lookup s
  /\ continuous_sensors s' = continuous_sensors s.

(** The memoized sensor classification agrees with the registry. *)
Definition sensors_ok (w : World) (s : PassState) : Prop :=
  forall entity_id is_continuous,
    continuous_sensors s !! entity_id = Some is_continuous ->
    is_continuous = _is_sensor_continuous w entity_id.

(** What one row can do to the state besides indexing its context id. *)
Definition row_step (w : World) (s s' : PassState) : Prop :=
  names s ⊆ names s'
  /\ context_lookup s' = context_lookup s
  /\ (sensors_ok w s -> sensors_ok w s').

(** The state right after [yield_rows] has indexed [row]. *)
Definition indexed (row : Row) (s : PassState) : PassState :=
  set_context_lookup (setdefault (context_id row) (Some row)) s.

(** The context lookup after a scan of [rows] from a lookup [m]. *)
Definition index_rows (m : gmap (option string) (option Row)) (rows : list Row) :=
  foldl (fun m row => setdefault (context_id row) (Some row) m) m rows.

(** The earliest row of [rows] that carries the context id [k]. *)
Definition first_with_context (k : option string) (rows : list Row) : option Row :=
  List.find (fun row => bool_decide (context_id row = k)) rows.

(** The context fields that attribute an entry to another event. *)
Definition CONTEXT_FIELDS : list string :=
  ["context_entity_id"; "context_entity_id_name"; "context_event_type";
   "context_domain"; "context_service"].

(** The message of a lifecycle row. *)
Definition lifecycle_message (row : Row) : string :=
  if String.eqb (event_type row) EVENT_HOMEASSISTANT_START then "started" else "stopped".

(** The registry entry of [entity_id] has a state-class capability that is
    not null. *)
Definition has_state_class (w : World) (entity_id : string) : Prop :=
  exists entry caps v,
    registry_get w entity_id = Some entry
    /\ capabilities entry = Some caps
    /\ caps !! ATTR_STATE_CLASS = Some v
    /\ v <> VNone.

(** The raw payload string of a row: [shared_data or event_data], when that
    is a non-empty string. *)
Definition source_of (row : Row) : option string :=
  opt_truthy (opt_or (shared_data row) (event_data row)).

(** The view built for [row] around the decoded payload [data]. *)
Definition lazy_view (row : Row) (data : Dict) : LazyEventPartialState :=
  mkLazy row (event_type row) (entity_id row) (state row) (context_id row)
         (context_user_id row) (context_parent_id row) data.

(** The cache answers for [source]: it holds a non-empty mapping there. *)
Definition cache_hit (s : PassState) (source : string) : option Dict :=
  match event_data_cache s !! source with
  | Some cached => if dict_truthy cached then Some cached else None
  | None => None
  end.

(** The calls to [json.loads] made by a run, earliest first. *)
Definition decodes_of {A} (r : Result (A * PassState)) : list string :=
  match r with
  | Ok (_, s) => rev (loads_calls s)
  | Raise _ => []
  end.

(** The number of calls to the decoder on [source] so far. *)
Definition calls_for (source : string) (s : PassState) : nat :=
  length (List.filter (fun called => String.eqb called source) (loads_calls s)).

(** The cache holds what the decoder returns, every decoded payload is
    cached, and a payload that decodes to a non-empty mapping has been
    decoded at most once. *)
Definition decode_inv (w : World) (s : PassState) : Prop :=
  (forall source d, event_data_cache s !! source = Some d -> json_loads w source = Some d)
  /\ (forall source, In source (loads_calls s) -> is_Some (event_data_cache s !! source))
  /\ (forall source d,
        json_loads w source = Some d -> dict_truthy d = true ->
        (calls_for source s <= 1)%nat).

(* ===================================================================== *)
(** ** A concrete environment for examples *)
(* ===================================================================== *)

(** [s.partition] at the first dot: what precedes it and what follows it
    (nothing follows when there is no dot). *)
Fixpoint partition_dot (s : string) : string * string :=
  match s with
  | EmptyString => (EmptyString, EmptyString)
  | String a s' =>
      if Ascii.eqb a "."%char then (EmptyString, s')
      else let '(domain, object_id) := partition_dot s' in (String a domain, object_id)
  end.

(** Modelled from the spec: [homeassistant.core.split_entity_id] is not part
    of the source at hand; the spec speaks of the entity id's domain prefix
    and of its object-id segment.  The id is cut at its first dot, and an id
    without a domain or without an object id is refused.  The properties
    below hold for any splitter; this one serves the examples. *)
Definition split_at_dot (entity_id : string) : Result (string * string) :=
  let '(domain, object_id) := partition_dot entity_id in
  if str_truthy domain && str_truthy object_id then Ok (domain, object_id)
  else Raise ValueError.

(** A decoder given by a table of the payloads it knows. *)
Definition loads_table (table : list (string * Dict)) (source : string) : option Dict :=
  snd <$> find (fun entry => String.eqb (fst entry) source) table.

(** An environment without live states, registry entries or describers. *)
Definition bare_world (table : list (string * Dict)) (rows : list Row) : World :=
  mkWorld (fun _ => None) (fun _ => None) ∅ (loads_table table) split_at_dot
          (fun _ => "") VNum VNum 0
          (fun _ include_entities _ _ entity_id => str_in entity_id include_entities)
          (fun _ => rows).

(** A row of a given type, time and context with every other column null,
    and rows derived from it by setting columns. *)
Definition blank_row (event_type : string) (time_fired : Z) (context_id : option string) : Row :=
  mkRow event_type (Some time_fired) None None context_id None None None None None None false.

Definition with_entity (entity_id state : string) (attrs : option string) (r : Row) : Row :=
  mkRow (event_type r) (time_fired r) (Some entity_id) (Some state) (context_id r)
        (context_user_id r) (context_parent_id r) (shared_data r) (event_data r)
        (shared_attrs r) attrs (context_only r).

Definition with_event_data (payload : string) (r : Row) : Row :=
  mkRow (event_type r) (time_fired r) (entity_id r) (state r) (context_id r)
        (context_user_id r) (context_parent_id r) (shared_data r) (Some payload)
        (shared_attrs r) (attributes r) (context_only r).

Definition with_parent (parent_id : string) (r : Row) : Row :=
  mkRow (event_type r) (time_fired r) (entity_id r) (state r) (context_id r)
        (context_user_id r) (Some parent_id) (shared_data r) (event_data r)
        (shared_attrs r) (attributes r) (context_only r).

(** The keys an output entry can carry, and an entry read as the list of
    its fields in that order. *)
Definition ENTRY_KEYS : list string :=
  ["when"; "name"; "message"; "state"; "entity_id"; "domain"; "icon";
   "context_user_id"; "context_entity_id"; "context_entity_id_name";
   "context_event_type"; "context_domain"; "context_service"; "context_name"].

Definition fields (data : Dict) : list (string * Value) :=
  omap (fun key => pair key <$> data !! key) ENTRY_KEYS.

Definition entries (r : Result (list Dict)) : Result (list (list (string * Value))) :=
  match r with
  | Ok out => Ok (map fields out)
  | Raise e => Raise e
  end.

(** The outcome of a run: whether it returned, and what it returned. *)
Definition returned {A} (r : Result A) : bool :=
  match r with Ok _ => true | Raise _ => false end.

Definition entries_in {A} (r : Result (list Dict * A)) : Result (list (list (string * Value))) :=
  match r with
  | Ok (out, _) => Ok (map fields out)
  | Raise e => Raise e
  end.

(** The scenario of the spec: a service call followed by the state change
    it caused. *)
Definition turn_on_payload : string :=
  "{" ++ json_field "domain" "light" ++ ", " ++ json_field "service" "turn_on" ++ "}".

Definition turn_on_dict : Dict :=
  <["domain" := VStr "light"]> (<["service" := VStr "turn_on"]> ∅).

Definition scenario_rows : list Row :=
  [ with_event_data turn_on_payload (blank_row EVENT_CALL_SERVICE 1 (Some "c1"));
    with_entity "light.kitchen" "on" (Some (json_obj1 "friendly_name" "Kitchen Light"))
                (blank_row EVENT_STATE_CHANGED 2 (Some "c1")) ].

(** [w] with the given describers registered. *)
Definition with_describers (w : World)
    (described : list (string * (string * (LazyEventPartialState -> option Dict)))) : World :=
  mkWorld (states_get w) (registry_get w) (list_to_map described) (json_loads w)
          (split_entity_id w) (py_str w) (isoformat w) (timestamp w) (utcnow w)
          (generate_filter w) (execute w).

(** Rows of the examples. *)
Definition automation_row : Row :=
  with_event_data (json_obj1 "entity_id" "automation.morning")
                  (blank_row EVENT_AUTOMATION_TRIGGERED 5 (Some "c9")).

Definition two_lights : list Row :=
  [ with_entity "light.kitchen" "on" None (blank_row EVENT_STATE_CHANGED 1 (Some "c1"));
    with_entity "light.hall" "on" None (blank_row EVENT_STATE_CHANGED 2 (Some "c1")) ].

Definition orphan_row : Row :=
  with_parent "p0" (with_entity "light.kitchen" "on" None
                                (blank_row EVENT_STATE_CHANGED 1 (Some "c1"))).

Definition turn_on_row : Row :=
  with_event_data turn_on_payload (blank_row EVENT_CALL_SERVICE 1 (Some "c1")).

Definition unnamed_row : Row :=
  with_entity "light.kitchen" "on" None (blank_row EVENT_STATE_CHANGED 1 (Some "c1")).
Definition named_row : Row :=
  with_entity "light.kitchen" "off" (Some (json_obj1 "friendly_name" "Kitchen Light"))
              (blank_row EVENT_STATE_CHANGED 2 (Some "c2")).

Definition power_row : Row :=
  with_entity "sensor.power" "230" None (blank_row EVENT_STATE_CHANGED 1 (Some "c1")).
Definition door_row : Row :=
  with_entity "sensor.front_door" "open" None (blank_row EVENT_STATE_CHANGED 2 (Some "c2")).

(** A service call whose payload is not JSON, and a state change of a
    sensor in the context the call opened. *)
Definition broken_call_row : Row :=
  with_event_data "not json" (blank_row EVENT_CALL_SERVICE 1 (Some "c1")).
Definition caused_door_row : Row :=
  with_entity "sensor.front_door" "open" None (blank_row EVENT_STATE_CHANGED 2 (Some "c1")).

(** An environment whose registry knows one sensor with a state class. *)
Definition metered_world (rows : list Row) : World :=
  mkWorld (fun _ => None)
          (fun entity_id =>
             if String.eqb entity_id "sensor.power"
             then Some (mkEntry (Some (<[ATTR_STATE_CLASS := VStr "measurement"]> ∅)))
             else None)
          ∅ (loads_table []) split_at_dot (fun _ => "") VNum VNum 0
          (fun _ include_entities _ _ entity_id => str_in entity_id include_entities)
          (fun _ => rows).

(** An environment in which an integration describes the start event. *)
Definition start_described : World :=
  with_describers
    (bare_world [] [blank_row EVENT_HOMEASSISTANT_START 7 None])
    [(EVENT_HOMEASSISTANT_START,
      ("supervisor", fun _ => Some (<["name" := VStr "Supervisor"]> ∅)))].

(** An environment in which an integration describes a doorbell event, and
    two such events stored with the payload of an event without data. *)
Definition doorbell_world (rows : list Row) : World :=
  with_describers
    (bare_world [("{}", ∅)] rows)
    [("doorbell_pressed",
      ("doorbell",
       fun _ => Some (<["name" := VStr "Doorbell"]> (<["message" := VStr "pressed"]> ∅))))].

Definition doorbell_rows : list Row :=
  [ with_event_data "{}" (blank_row "doorbell_pressed" 1 (Some "c1"));
    with_event_data "{}" (blank_row "doorbell_pressed" 2 (Some "c2")) ].

(* ===================================================================== *)
(** ** Logging an entry and registering describers *)
(* ===================================================================== *)

(** [async_log_entry]: the event fired on the bus, as its type and data.
    The context only travels with the event and is left out. *)
Definition async_log_entry (name message : string) (domain entity_id : option string)
    : string * Dict :=
  let data : Dict := <[ATTR_MESSAGE := VStr message]> (<[ATTR_NAME := VStr name]> ∅) in
  let data :=
    match domain with
    | Some domain => <[ATTR_DOMAIN := VStr domain]> data
    | None => data
    end in
  let data :=
    match entity_id with
    | Some entity_id => <[ATTR_ENTITY_ID := VStr entity_id]> data
    | None => data
    end in
  (EVENT_LOGBOOK_ENTRY, data).

(** [log_message], the handler of the [logbook.log] service: [render] is the
    rendering of the message template. *)
Definition log_message (render : string -> string) (name message : string)
    (domain entity_id : option string) : string * Dict :=
  let domain :=
    match entity_id, domain with
    | None, None => Some DOMAIN
    | _, _ => domain
    end in
  async_log_entry name (render message) domain entity_id.

(** The describer registry [hass.data[DOMAIN]]. *)
Abbreviation Registry := (gmap string (string * (LazyEventPartialState -> option Dict))).

(** [_async_describe_event]: teach the logbook how to describe an event. *)
Definition _async_describe_event (domain event_name : string)
    (describe_callback : LazyEventPartialState -> option Dict) (registry : Registry)
    : Registry :=
  <[event_name := (domain, describe_callback)]> registry.

(** [_process_logbook_platform]: the platform calls the callback it is
    given once per event it describes; [described] lists these calls in
    order. *)
Definition _process_logbook_platform
    (described : list (string * string * (LazyEventPartialState -> option Dict)))
    (registry : Registry) : Registry :=
  foldl (fun registry '(domain, event_name, describe_callback) =>
           _async_describe_event domain event_name describe_callback registry)
        registry described.

(* ===================================================================== *)
(** ** The two transport entry points *)
(* ===================================================================== *)

(** What the transport layer imports besides the engine's environment.
    Date-times are numbers of microseconds.
    - [parse_datetime]: [dt_util.parse_datetime], [None] when unparsable;
    - [as_utc]: [dt_util.as_utc];
    - [start_of_local_day]: [dt_util.start_of_local_day()];
    - [int_of_str]: the builtin [int] on a string, [None] when it raises;
    - [cv_entity_ids]: [cv.entity_ids], [None] when it raises [vol.Invalid]. *)
Record Boundary : Type := mkBoundary {
  parse_datetime : string -> option Z;
  as_utc : Z -> Z;
  start_of_local_day : Z;
  int_of_str : string -> option Z;
  cv_entity_ids : string -> option (list string);
}.

(** The range of [datetime]: from 0001-01-01 00:00:00 to 9999-12-31
    23:59:59.999999, as microseconds on the wall clock of the date-time
    counted from 1970-01-01 00:00:00; and the range of [timedelta], in days. *)
Definition DATETIME_MIN : Z := -62135596800000000.
Definition DATETIME_MAX : Z := 253402300799999999.
Definition TIMEDELTA_MAX_DAYS : Z := 999999999.
Definition MICROSECONDS_PER_DAY : Z := 86400000000.

(** [timedelta(days=n)], in microseconds: [None] when it raises
    [OverflowError], the number of days being out of range. *)
Definition timedelta_days (n : Z) : option Z :=
  if (- TIMEDELTA_MAX_DAYS <=? n) && (n <=? TIMEDELTA_MAX_DAYS)
  then Some (n * MICROSECONDS_PER_DAY)
  else None.

(** [d + delta] for a date-time and a duration ([d - delta] is taken as
    [d + (- delta)]): [None] when it raises [OverflowError], the result
    being out of the range of [datetime]. *)
Definition datetime_add (d delta : Z) : option Z :=
  let result := d + delta in
  if (DATETIME_MIN <=? result) && (result <=? DATETIME_MAX) then Some result else None.

(** The query string of a request to the view, as far as it is read. *)
Record Query : Type := mkQuery {
  q_period : option string;
  q_entity : option string;
  q_end_time : option string;
  q_context_id : option string;
}.

(** [LogbookView]: the filters it was constructed with. *)
Record LogbookView : Type := mkView {
  view_filters : option Filters;
  view_entities_filter : option (string -> bool);
}.

Inductive Response : Type :=
  | json_message (message : string) (status : Z)
  | json (events : list Dict).

(** The exceptions of the transport layer: those of the engine, the
    [ValueError] of [int], the [OverflowError] of the date arithmetic, and
    the [TypeError] of the [raise ... from vol.Invalid] statement, whose
    cause is a class that cannot be instantiated without a message, so that
    the [InvalidEntityFormatError] it means to raise is never raised. *)
Inductive TransportError : Type :=
  | EngineError (e : Exn)
  | PeriodValueError
  | OverflowError
  | TypeError.

Inductive Outcome (A : Type) : Type :=
  | Done (a : A)
  | Fails (e : TransportError).
Arguments Done {A} a.
Arguments Fails {A} e.

Definition BAD_REQUEST : Z := 400.

(** [LogbookView.get]. *)
Definition LogbookView_get (w : World) (b : Boundary) (self : LogbookView)
    (query : Query) (datetime : option string) : Outcome Response :=
  let parsed :=
    match opt_truthy datetime with
    | Some datetime => parse_datetime b datetime
    | None => Some (start_of_local_day b)
    end in
  match parsed with
  | None => Done (json_message "Invalid datetime" BAD_REQUEST)
  | Some datetime_dt =>
      let period :=
        match q_period query with
        | None => Some 1
        | Some period_str => int_of_str b period_str
        end in
      match period with
      | None => Fails PeriodValueError
      | Some period =>
          let validated :=
            match opt_truthy (q_entity query) with
            | Some entity_ids_str =>
                match cv_entity_ids b entity_ids_str with
                | Some entity_ids => Some (Some entity_ids)
                | None => None
                end
            | None => Some None
            end in
          match validated with
          | None => Fails TypeError
          | Some entity_ids =>
              let window : Outcome (option (Z * Z)) :=
                match q_end_time query with
                | None =>
                    match timedelta_days (period - 1) with
                    | None => Fails OverflowError
                    | Some back =>
                        match datetime_add (as_utc b datetime_dt) (- back) with
                        | None => Fails OverflowError
                        | Some start_day =>
                            match timedelta_days period with
                            | None => Fails OverflowError
                            | Some span =>
                                match datetime_add start_day span with
                                | None => Fails OverflowError
                                | Some end_day => Done (Some (start_day, end_day))
                                end
                            end
                        end
                    end
                | Some end_time_str =>
                    match parse_datetime b end_time_str with
                    | None => Done None
                    | Some end_day_dt => Done (Some (datetime_dt, end_day_dt))
                    end
                end in
              match window with
              | Fails e => Fails e
              | Done None => Done (json_message "Invalid end_time" BAD_REQUEST)
              | Done (Some (start_day, end_day)) =>
                  let context_id := q_context_id query in
                  if ids_truthy entity_ids && ctx_truthy context_id then
                    Done (json_message "Can't combine entity with context_id" BAD_REQUEST)
                  else
                    match _get_events w start_day end_day entity_ids (view_filters self)
                                      (view_entities_filter self) context_id false with
                    | Ok events => Done (json events)
                    | Raise e => Fails (EngineError e)
                    end
              end
          end
      end
  end.

(** The message of the [logbook/get_events] command, as its schema types it. *)
Record Message : Type := mkMessage {
  msg_id : Z;
  msg_start_time : string;
  msg_end_time : option string;
  msg_entity_ids : option (list string);
  msg_context_id : option string;
}.

(** What is sent back on the connection: an error, the empty object, or the
    list of entries. *)
Inductive Payload : Type :=
  | empty_object
  | events_list (events : list Dict).

Inductive Reply : Type :=
  | send_error (id : Z) (code message : string)
  | send_result (id : Z) (result : Payload).

(** [ws_get_events]; [filters] and [entities_filter] are
    [hass.data[LOGBOOK_FILTERS]] and [hass.data[LOGBOOK_ENTITIES_FILTER]]. *)
Definition ws_get_events (w : World) (b : Boundary) (filters : option Filters)
    (entities_filter : option (string -> bool)) (msg : Message) : Outcome Reply :=
  let utc_now := utcnow w in
  match parse_datetime b (msg_start_time msg) with
  | None => Done (send_error (msg_id msg) "invalid_start_time" "Invalid start_time")
  | Some start_time =>
      let start_time := as_utc b start_time in
      let end_time :=
        match opt_truthy (msg_end_time msg) with
        | None => Some utc_now
        | Some end_time_str =>
            match parse_datetime b end_time_str with
            | Some parsed_end_time => Some (as_utc b parsed_end_time)
            | None => None
            end
        end in
      match end_time with
      | None => Done (send_error (msg_id msg) "invalid_end_time" "Invalid end_time")
      | Some end_time =>
          if utc_now <? start_time then Done (send_result (msg_id msg) empty_object)
          else
            match _get_events w start_time end_time (msg_entity_ids msg) filters
                              entities_filter (msg_context_id msg) true with
            | Ok events => Done (send_result (msg_id msg) (events_list events))
            | Raise e => Fails (EngineError e)
            end
      end
  end.

(* ===================================================================== *)
(** ** Vocabulary of the further properties *)
(* ===================================================================== *)

(** [s] holds no double quote. *)
Fixpoint quote_free (s : string) : bool :=
  match s with
  | EmptyString => true
  | String a s' => negb (Ascii.eqb a dquote) && quote_free s'
  end.

(** The keys [augment] may write. *)
Definition AUGMENT_KEYS : list string :=
  ["context_user_id"; "context_entity_id"; "context_entity_id_name";
   "context_event_type"; "context_domain"; "context_service"; "context_name"].

(** A row that can yield an entry: neither context-only nor a service call. *)
Definition may_emit (row : Row) : bool :=
  negb (context_only row) && negb (String.eqb (event_type row) EVENT_CALL_SERVICE).

(** Every memoized name is truthy. *)
Definition names_ok (s : PassState) : Prop :=
  forall entity_id name, names s !! entity_id = Some name -> truthy name = true.

(** [d] is what the decoder makes of the raw payload of [row]: the empty
    mapping when the row has no payload. *)
Definition payload_decodes (w : World) (row : Row) (d : Dict) : Prop :=
  match source_of row with
  | None => d = ∅
  | Some source => json_loads w source = Some d
  end.

(** Every memoized view is the view of its row over the decoding of the
    row's payload. *)
Definition views_ok (w : World) (s : PassState) : Prop :=
  forall row event,
    event_cache s !! row = Some event ->
    exists d, event = lazy_view row d /\ payload_decodes w row d.

(** The invariant of the caches along a pass. *)
Definition pass_inv (w : World) (s : PassState) : Prop :=
  decode_inv w s /\ views_ok w s /\ names_ok s.

(** A transport environment for the examples: date-times are written as
    decimal numerals of one digit. *)
Definition digit_boundary : Boundary :=
  mkBoundary
    (fun s => match s with
              | String a EmptyString =>
                  let n := Z.of_nat (nat_of_ascii a) - 48 in
                  if (0 <=? n) && (n <=? 9) then Some n else None
              | _ => None
              end)
    (fun t => t) 5
    (fun s => match s with
              | String a EmptyString =>
                  let n := Z.of_nat (nat_of_ascii a) - 48 in
                  if (0 <=? n) && (n <=? 9) then Some n else None
              | _ => None
              end)
    (fun s => Some [s]).

(** Rows of the further examples. *)
Definition seed_row : Row :=
  mkRow EVENT_STATE_CHANGED (Some 1) None None (Some "c1") None None
        (Some "not json") None None None true.

(** The entry of a user log entry, before it is augmented. *)
Definition logbook_entry_data (when name message domain entity_id : Value) : Dict :=
  <["entity_id" := entity_id]>
    (<["domain" := domain]>
      (<["message" := message]> (<["name" := name]> (<["when" := when]> ∅)))).

(** The fields of a user log entry that the augmenter leaves alone. *)
Definition logbook_fields (data : Dict) (payload : Dict) (domain : Value)
    (described_id : string) : Prop :=
  data !! "domain" = Some domain
  /\ data !! "entity_id" = Some (VStr described_id)
  /\ data !! "name" = Some (dict_get payload ATTR_NAME)
  /\ data !! "message" = Some (dict_get payload ATTR_MESSAGE).


(** A user log entry that names its entity but no domain. *)
Definition note_payload : string := json_obj1 "entity_id" "light.kitchen".
Definition note_row : Row :=
  with_event_data note_payload (blank_row EVENT_LOGBOOK_ENTRY 4 (Some "c4")).

(** The last registration of [event_name] among the calls [described]. *)
Definition last_described (event_name : string)
    (described : list (string * string * (LazyEventPartialState -> option Dict)))
    : option (string * (LazyEventPartialState -> option Dict)) :=
  foldl (fun found '(domain, name, describe_callback) =>
           if String.eqb name event_name then Some (domain, describe_callback) else found)
        None described.


(** The answers of the view that come before the engine is called, when
    the entities of the query are valid. *)
Definition VIEW_REFUSALS : list (Outcome Response) :=
  [ Done (json_message "Invalid datetime" BAD_REQUEST);
    Fails PeriodValueError;
    Fails OverflowError;
    Done (json_message "Invalid end_time" BAD_REQUEST);
    Done (json_message "Can't combine entity with context_id" BAD_REQUEST) ].

(* ===================================================================== *)
(** * Properties *)
(* ===================================================================== *)

(** ** Examples of the definitions *)

Example extract_entity_id :
  ENTITY_ID_JSON_EXTRACT (json_obj1 "entity_id" "light.kitchen") = Some "light.kitchen".
Proof. reflexivity. Qed.

Example extract_no_blank :
  ICON_JSON_EXTRACT ("{" ++ quoted "icon" ++ ":" ++ quoted "mdi:home" ++ "}") = Some "mdi:home".
Proof. reflexivity. Qed.

Example extract_empty_value :
  DOMAIN_JSON_EXTRACT (json_obj1 "domain" "") = None.
Proof. reflexivity. Qed.

Example extract_leftmost :
  DOMAIN_JSON_EXTRACT ("{" ++ json_field "domain" "" ++ ", " ++ json_field "domain" "light" ++ "}")
  = Some "light".
Proof. reflexivity. Qed.

Example scenario_service_call_context :
  entries (_get_events (bare_world [(turn_on_payload, turn_on_dict)] scenario_rows)
                       0 10 None None None None true)
  = Ok [[("when", VNum 2); ("name", VStr "Kitchen Light"); ("state", VStr "on");
         ("entity_id", VStr "light.kitchen"); ("context_event_type", VStr "call_service");
         ("context_domain", VStr "light"); ("context_service", VStr "turn_on")]].
Proof. vm_compute. reflexivity. Qed.

(** ** The extraction patterns *)

Lemma match_here_truthy key s g : match_here key s = Some g -> str_truthy g = true.
Proof.
  unfold match_here. intros Hm.
  repeat case_match; simplify_eq; reflexivity.
Qed.

(** A group captured by a pattern is never empty, so the walrus tests on
    an extracted value only distinguish a match from no match. *)
Lemma json_extract_truthy key s g : json_extract key s = Some g -> str_truthy g = true.
Proof.
  induction s as [|a s IH]; cbn [json_extract]; intros Hs.
  - destruct (match_here key EmptyString) eqn:Hm; [|discriminate].
    discriminate Hm.
  - destruct (match_here key (String a s)) eqn:Hm.
    + simplify_eq. eauto using match_here_truthy.
    + auto.
Qed.

Lemma opt_truthy_extract key s : opt_truthy (json_extract key s) = json_extract key s.
Proof.
  destruct (json_extract key s) as [g|] eqn:Hs; [|reflexivity].
  simpl. by rewrite (json_extract_truthy _ _ _ Hs).
Qed.

(** ** Row filter *)

Lemma filter_accepts_true entities_filter entity_id :
  filter_accepts entities_filter entity_id = true <->
  entities_filter = None \/ exists f, entities_filter = Some f /\ f entity_id = true.
Proof.
  destruct entities_filter as [f|]; simpl.
  - split; [eauto|]. intros [?|(g & ? & ?)]; by simplify_eq.
  - split; auto.
Qed.

(** C6. A row that is not a system start/stop event and whose raw payload
    yields an entity id through the entity-id pattern is kept exactly when
    the entities filter is absent or accepts that id; the event type (and
    the describer registry) play no part. *)
Theorem keep_row_by_entity_id (w : World) (event_type : string) (row : Row)
    (entities_filter : option (string -> bool)) (entity_id : string) :
  str_in event_type HOMEASSISTANT_EVENTS = false ->
  _row_event_data_extract row ENTITY_ID_JSON_EXTRACT = Some entity_id ->
  (_keep_row w event_type row entities_filter = true <->
     entities_filter = None \/ exists f, entities_filter = Some f /\ f entity_id = true)
  /\ (forall w' event_type',
        str_in event_type' HOMEASSISTANT_EVENTS = false ->
        _keep_row w' event_type' row entities_filter
        = _keep_row w event_type row entities_filter).
Proof.
  intros Hev Hex.
  assert (Hkeep : forall w' et', str_in et' HOMEASSISTANT_EVENTS = false ->
            _keep_row w' et' row entities_filter = filter_accepts entities_filter entity_id).
  { intros w' et' Het. unfold _keep_row. rewrite Het.
    unfold _row_event_data_extract, ENTITY_ID_JSON_EXTRACT in *.
    by rewrite opt_truthy_extract, Hex. }
  split.
  - rewrite (Hkeep w event_type Hev). apply filter_accepts_true.
  - intros w' et' Het. by rewrite (Hkeep w' et' Het), (Hkeep w event_type Hev).
Qed.

Lemma keep_row_by_entity_id_witness :
  (_keep_row (bare_world [] []) EVENT_AUTOMATION_TRIGGERED automation_row
             (Some (String.eqb "automation.morning")) = true <->
     Some (String.eqb "automation.morning") = None
     \/ exists f, Some (String.eqb "automation.morning") = Some f
                  /\ f "automation.morning" = true)
  /\ (forall w' event_type',
        str_in event_type' HOMEASSISTANT_EVENTS = false ->
        _keep_row w' event_type' automation_row (Some (String.eqb "automation.morning"))
        = _keep_row (bare_world [] []) EVENT_AUTOMATION_TRIGGERED automation_row
                    (Some (String.eqb "automation.morning"))).
Proof.
  apply (keep_row_by_entity_id (bare_world [] []) EVENT_AUTOMATION_TRIGGERED automation_row
           (Some (String.eqb "automation.morning")) "automation.morning");
    reflexivity.
Defined.

(** ** Reasoning about the monad *)

Lemma bind_Ok {A B} (m : M A) (k : A -> M B) s b s' :
  bind m k s = Ok (b, s') <-> exists a s1, m s = Ok (a, s1) /\ k a s1 = Ok (b, s').
Proof.
  unfold bind. destruct (m s) as [[a s1]|e].
  - split; [eauto|]. by intros (? & ? & ? & ?); simplify_eq.
  - split; [discriminate|]. by intros (? & ? & ? & ?).
Qed.

Lemma returned_Ok {A} (r : Result A) : returned r = true -> exists a, r = Ok a.
Proof. destruct r; [eauto|discriminate]. Defined.

Lemma bind_Raise {A B} (m : M A) (k : A -> M B) s e :
  m s = Raise e -> bind m k s = Raise e.
Proof. unfold bind. by intros ->. Qed.

Lemma bind_step {A B} (m : M A) (k : A -> M B) s a s1 :
  m s = Ok (a, s1) -> bind m k s = k a s1.
Proof. unfold bind. by intros ->. Qed.

(** Invert a successful run of a monadic computation down to its calls. *)
Ltac inv_run :=
  repeat match goal with
  | H : bind _ _ _ = Ok _ |- _ =>
      let a := fresh "a" in let s := fresh "s" in let Ha := fresh "Hrun" in
      apply bind_Ok in H as (a & s & Ha & H)
  | H : ret _ _ = Ok _ |- _ => unfold ret in H; simplify_eq
  | H : modify _ _ = Ok _ |- _ => unfold modify in H; simplify_eq
  | H : get_state _ = Ok _ |- _ => unfold get_state in H; simplify_eq
  | H : raise _ _ = Ok _ |- _ => discriminate H
  | H : lift ?r _ = Ok _ |- _ => unfold lift in H; destruct r eqn:?; simplify_eq
  end.

(** ** What the caches leave alone *)

Lemma cache_step_refl s : cache_step s s.
Proof. by repeat split. Qed.

Lemma cache_step_trans s1 s2 s3 : cache_step s1 s2 -> cache_step s2 s3 -> cache_step s1 s3.
Proof.
  intros (? & ? & ?) (? & ? & ?). repeat split; try congruence.
  by etrans.
Qed.

Create HintDb pass.
#[local] Hint Resolve cache_step_refl : pass.

Lemma LazyEventPartialState_init_step w row s view s' :
  LazyEventPartialState_init w row s = Ok (view, s') -> cache_step s s'.
Proof.
  unfold LazyEventPartialState_init. intros Hrun.
  repeat (case_match; inv_run); auto with pass; by repeat split.
Qed.

Lemma EventCache_get_step w row s event s' :
  EventCache_get w row s = Ok (event, s') -> cache_step s s'.
Proof.
  unfold EventCache_get. intros Hrun. inv_run.
  case_match; inv_run; auto with pass.
  eapply cache_step_trans; [by eapply LazyEventPartialState_init_step|].
  by repeat split.
Qed.

Lemma EntityNameCache_get_step w entity_id row s name s' :
  EntityNameCache_get w entity_id row s = Ok (name, s') -> cache_step s s'.
Proof.
  unfold EntityNameCache_get. intros Hrun. inv_run.
  repeat (case_match; inv_run); auto with pass;
    (repeat split; simpl; by apply insert_subseteq).
Qed.

Lemma augment_from_step w data entity_id context_row s data' s' :
  augment_from w data entity_id context_row s = Ok (data', s') -> cache_step s s'.
Proof.
  unfold augment_from. intros Hrun.
  repeat (case_match; inv_run); auto with pass;
    repeat match goal with
    | H : EntityNameCache_get _ _ _ _ = Ok _ |- _ => apply EntityNameCache_get_step in H
    | H : EventCache_get _ _ _ = Ok _ |- _ => apply EventCache_get_step in H
    end; eauto using cache_step_trans.
Qed.

Lemma augment_step w data entity_id row s data' s' :
  augment w data entity_id row s = Ok (data', s') -> cache_step s s'.
Proof.
  unfold augment. intros Hrun. inv_run.
  case_match; inv_run; eauto using augment_from_step with pass.
Qed.

(** ** The scan, row by row *)

Lemma row_step_refl w s : row_step w s s.
Proof. by repeat split. Qed.

Lemma row_step_trans w s1 s2 s3 : row_step w s1 s2 -> row_step w s2 s3 -> row_step w s1 s3.
Proof.
  intros (? & ? & ?) (? & ? & ?). repeat split; [by etrans|congruence|auto].
Qed.

Lemma cache_step_row_step w s s' : cache_step s s' -> row_step w s s'.
Proof.
  intros (? & ? & Hs). repeat split; auto.
  unfold sensors_ok. by rewrite Hs.
Qed.

#[local] Hint Resolve row_step_refl cache_step_row_step : pass.

Lemma classify_continuous_step w entity_id s r s' :
  classify_continuous w entity_id s = Ok (r, s') -> row_step w s s'.
Proof.
  unfold classify_continuous. intros Hrun. inv_run.
  repeat (case_match; inv_run); auto with pass.
  repeat split; auto. unfold sensors_ok. simpl. intros Hok e b.
  rewrite lookup_insert. case_decide; intros; simplify_eq; auto.
Qed.

Lemma _humanify_row_step w format_time row s out s' :
  _humanify_row w format_time row s = Ok (out, s') -> row_step w s s'.
Proof.
  unfold _humanify_row. intros Hrun.
  repeat (case_match; inv_run); auto with pass;
    repeat match goal with
    | H : classify_continuous _ _ _ = Ok _ |- _ => apply classify_continuous_step in H
    | H : EntityNameCache_get _ _ _ _ = Ok _ |- _ =>
        apply EntityNameCache_get_step, (cache_step_row_step w) in H
    | H : EventCache_get _ _ _ = Ok _ |- _ =>
        apply EventCache_get_step, (cache_step_row_step w) in H
    | H : augment _ _ _ _ _ = Ok _ |- _ =>
        apply augment_step, (cache_step_row_step w) in H
    end; eauto using row_step_trans.
Qed.

Lemma yield_rows_step_state w entities_filter row s yielded s' :
  yield_rows_step w entities_filter row s = Ok (yielded, s') -> s' = indexed row s.
Proof.
  unfold yield_rows_step. intros Hrun. inv_run. by case_match; inv_run.
Qed.

Lemma process_row_state w entities_filter format_time row s out s' :
  process_row w entities_filter format_time row s = Ok (out, s') ->
  row_step w (indexed row s) s'.
Proof.
  unfold process_row. intros Hrun. inv_run.
  match goal with H : yield_rows_step _ _ _ _ = Ok _ |- _ =>
    apply yield_rows_step_state in H; subst end.
  case_match; inv_run; eauto using _humanify_row_step with pass.
Qed.

(** A pass over [pre ++ post] is a pass over [pre] carried on over [post]. *)
Lemma humanify_rows_app w entities_filter format_time pre post s :
  humanify_rows w entities_filter format_time (pre ++ post) s
  = match humanify_rows w entities_filter format_time pre s with
    | Ok (out1, s1) =>
        match humanify_rows w entities_filter format_time post s1 with
        | Ok (out2, s2) => Ok ((out1 ++ out2)%list, s2)
        | Raise e => Raise e
        end
    | Raise e => Raise e
    end.
Proof.
  revert s. induction pre as [|row pre IH]; intros s; simpl.
  - unfold ret. by destruct (humanify_rows _ _ _ post s) as [[]|].
  - unfold bind.
    destruct (process_row _ _ _ row s) as [[out s1]|]; [|done].
    rewrite IH.
    destruct (humanify_rows _ _ _ pre s1) as [[out1 s2]|]; [|done].
    unfold ret.
    destruct (humanify_rows _ _ _ post s2) as [[out2 s3]|]; [|done].
    by rewrite app_assoc.
Qed.

Lemma humanify_rows_state w entities_filter format_time rows s out s' :
  humanify_rows w entities_filter format_time rows s = Ok (out, s') ->
  names s ⊆ names s'
  /\ context_lookup s' = index_rows (context_lookup s) rows
  /\ (sensors_ok w s -> sensors_ok w s').
Proof.
  revert s out. induction rows as [|row rows IH]; intros s out Hrun; simpl in Hrun; inv_run.
  - by repeat split.
  - match goal with H : process_row _ _ _ _ _ = Ok _ |- _ =>
      apply process_row_state in H as (Hn & Hc & Hs) end.
    match goal with H : humanify_rows _ _ _ _ _ = Ok _ |- _ =>
      apply IH in H as (Hn' & Hc' & Hs') end.
    repeat split.
    + etrans; [|exact Hn']. exact Hn.
    + rewrite Hc', Hc. reflexivity.
    + intros Hok. apply Hs', Hs. exact Hok.
Qed.

Lemma setdefault_lookup {V} (m : gmap (option string) V) (key k : option string) (value : V) :
  setdefault key value m !! k
  = match m !! k with
    | Some v => Some v
    | None => if decide (key = k) then Some value else None
    end.
Proof.
  unfold setdefault. destruct (m !! key) eqn:Hkey.
  - destruct (m !! k) eqn:Hk; [done|]. case_decide; congruence.
  - rewrite lookup_insert. case_decide; subst.
    + by rewrite Hkey.
    + by destruct (m !! k).
Qed.

Lemma index_rows_lookup (m : gmap (option string) (option Row)) (rows : list Row)
    (k : option string) :
  index_rows m rows !! k
  = match m !! k with
    | Some v => Some v
    | None => option_map Some (first_with_context k rows)
    end.
Proof.
  revert m. induction rows as [|row rows IH]; intros m; simpl.
  - by destruct (m !! k).
  - unfold index_rows in *. rewrite IH, setdefault_lookup.
    destruct (m !! k); [done|].
    case_decide; [by rewrite bool_decide_eq_true_2|by rewrite bool_decide_eq_false_2].
Qed.

(** ** Context lookup *)

(** C4. After the scan has gone through any rows [rows] (a whole stream or
    the part of it pulled so far), the context lookup maps every context id
    seen to the earliest row that carries it, and still holds the sentinel
    for the absent id; processing one more row only indexes that row, under
    its own id and only if the id is new, so a later row with a known id
    leaves the lookup as it is. *)
Theorem context_lookup_first_seen (w : World) (entities_filter : option (string -> bool))
    (format_time : Row -> Value) (rows : list Row) (out : list Dict) (s : PassState) :
  humanify_rows w entities_filter format_time rows initial_state = Ok (out, s) ->
  (forall c : string,
     context_lookup s !! Some c = option_map Some (first_with_context (Some c) rows))
  /\ context_lookup s !! None = Some None
  /\ (forall row out' s',
        process_row w entities_filter format_time row s = Ok (out', s') ->
        context_lookup s'
        = setdefault (context_id row) (Some row) (context_lookup s)
        /\ (is_Some (context_lookup s !! context_id row) ->
            context_lookup s' = context_lookup s)).
Proof.
  intros Hrun. apply humanify_rows_state in Hrun as (_ & Hc & _).
  split; [|split].
  - intros c. rewrite Hc, index_rows_lookup. simpl.
    by rewrite lookup_singleton_ne.
  - rewrite Hc, index_rows_lookup. simpl.
    by rewrite lookup_singleton_eq.
  - intros row out' s' Hrow.
    apply process_row_state in Hrow as (_ & Hc' & _).
    split; [exact Hc'|].
    intros [v Hv]. rewrite Hc'. simpl. unfold setdefault. by rewrite Hv.
Qed.

Lemma context_lookup_first_seen_witness :
  let w := bare_world [] [] in
  exists out s,
    humanify_rows w None (_row_time_fired_timestamp w) two_lights initial_state = Ok (out, s)
    /\ context_lookup s !! Some "c1"
       = option_map Some (first_with_context (Some "c1") two_lights)
    /\ context_lookup s !! None = Some None.
Proof.
  intros w.
  destruct (returned_Ok (humanify_rows w None (_row_time_fired_timestamp w) two_lights
                                       initial_state)) as ([out s] & Hrun);
    [vm_compute; reflexivity|].
  exists out, s. split; [exact Hrun|].
  destruct (context_lookup_first_seen w None (_row_time_fired_timestamp w)
              two_lights out s Hrun) as (Hfirst & Hnone & _).
  split; [apply Hfirst|apply Hnone].
Defined.

(** ** Service calls *)

(** C10. A service-call row yields no entry, whatever the entities filter
    and the describer registry: the scan only indexes it.  So in a pass the
    entries are those of the rows before it followed by those of the rows
    after it.  As the effective context row of another entry, a service-call
    row without an entity id contributes the domain and service of its
    payload and its event type. *)
Theorem call_service_never_emitted (w : World) (entities_filter : option (string -> bool))
    (format_time : Row -> Value) (row : Row) :
  event_type row = EVENT_CALL_SERVICE ->
  (forall s, process_row w entities_filter format_time row s = Ok ([], indexed row s))
  /\ (forall pre post s,
        humanify_rows w entities_filter format_time (pre ++ row :: post) s
        = match humanify_rows w entities_filter format_time pre s with
          | Ok (out1, s1) =>
              match humanify_rows w entities_filter format_time post (indexed row s1) with
              | Ok (out2, s2) => Ok ((out1 ++ out2)%list, s2)
              | Raise e => Raise e
              end
          | Raise e => Raise e
          end)
  /\ (forall data entity_id s,
        opt_truthy (row_entity_id row) = None ->
        augment_from w data entity_id row s
        = match EventCache_get w row s with
          | Ok (event, s') =>
              Ok (<["context_event_type" := VStr EVENT_CALL_SERVICE]>
                    (<["context_service" := dict_get (lz_data event) ATTR_SERVICE]>
                       (<["context_domain" := dict_get (lz_data event) ATTR_DOMAIN]> data)),
                  s')
          | Raise e => Raise e
          end).
Proof.
  intros Hev.
  assert (Hrow : forall s,
            process_row w entities_filter format_time row s = Ok ([], indexed row s)).
  { intros s. unfold process_row, yield_rows_step, bind, modify, ret.
    rewrite Hev. simpl. by destruct (context_only row). }
  split; [exact Hrow|split].
  - intros pre post s. rewrite humanify_rows_app.
    destruct (humanify_rows _ _ _ pre s) as [[out1 s1]|]; [|done].
    cbn [humanify_rows]. unfold bind. rewrite Hrow.
    destruct (humanify_rows _ _ _ post (indexed row s1)) as [[out2 s2]|]; done.
  - intros data eid s Hent. unfold augment_from. rewrite Hent, Hev. simpl.
    unfold bind. destruct (EventCache_get w row s) as [[event s']|]; done.
Qed.

Lemma call_service_never_emitted_witness :
  let w := bare_world [(turn_on_payload, turn_on_dict)] [] in
  let row := with_event_data turn_on_payload (blank_row EVENT_CALL_SERVICE 1 (Some "c1")) in
  process_row w None (_row_time_fired_timestamp w) row initial_state
  = Ok ([], indexed row initial_state).
Proof.
  intros w row.
  exact (proj1 (call_service_never_emitted w None (_row_time_fired_timestamp w) row eq_refl)
               initial_state).
Defined.

(** ** Self-referring context *)

Lemma with_context_user_fields data row k :
  k ∈ CONTEXT_FIELDS -> with_context_user data row !! k = data !! k.
Proof.
  intros Hk. unfold with_context_user. destruct (opt_truthy _); [|done].
  apply lookup_insert_ne. intros <-.
  apply list_elem_of_In in Hk. simpl in Hk.
  repeat (destruct Hk as [Hk|Hk]; [discriminate Hk|]). exact Hk.
Qed.

(** C1. When the context id of [row] resolves to a row that matches [row]
    itself (same event type, context id and time fired), [augment] adds
    none of the attributing context fields, and touches no cache, unless
    [row] has a parent context id that resolves to a row not matching
    [row]: the entry only receives the context user id. *)
Theorem augment_self_root (w : World) (data : Dict) (entity_id : Value) (row : Row)
    (s : PassState) (context_row : Row) :
  context_lookup s !! context_id row = Some (Some context_row) ->
  _rows_match row context_row = true ->
  ~ (exists parent_id parent_row,
       context_parent_id row = Some parent_id
       /\ context_lookup s !! Some parent_id = Some (Some parent_row)
       /\ _rows_match row parent_row = false) ->
  augment w data entity_id row s = Ok (with_context_user data row, s)
  /\ (forall k, k ∈ CONTEXT_FIELDS -> with_context_user data row !! k = data !! k).
Proof.
  intros Hctx Hmatch Hparent.
  split; [|intros k; apply with_context_user_fields].
  unfold augment, bind, get_state, effective_context_row, lookup_row.
  rewrite Hctx, Hmatch.
  destruct (opt_truthy (context_parent_id row)) as [p|] eqn:Hp; [|done].
  destruct (context_parent_id row) as [parent_id|] eqn:Hpid; [|done].
  destruct (context_lookup s !! Some parent_id) as [[parent_row|]|] eqn:Hlook; try done.
  destruct (_rows_match row parent_row) eqn:Hpm; [done|].
  exfalso. apply Hparent. by exists parent_id, parent_row.
Qed.

Lemma augment_self_root_witness :
  let s := indexed orphan_row initial_state in
  augment (bare_world [] []) ∅ (VStr "light.kitchen") orphan_row s
  = Ok (with_context_user ∅ orphan_row, s)
  /\ (forall k, k ∈ CONTEXT_FIELDS -> with_context_user ∅ orphan_row !! k = (∅ : Dict) !! k).
Proof.
  intros s.
  apply (augment_self_root (bare_world [] []) ∅ (VStr "light.kitchen") orphan_row s orphan_row).
  - vm_compute. reflexivity.
  - vm_compute. reflexivity.
  - intros (parent_id & parent_row & Hp & Hlook & _).
    vm_compute in Hp. injection Hp as <-.
    vm_compute in Hlook. discriminate Hlook.
Defined.

(** ** Rejecting contradictory requests *)

(** C9 as worded fails for a context id that is supplied but empty:
    the assertion tests truthiness, and the request is served. *)
Lemma get_events_empty_context_id_served :
  ~ (forall (w : World) start_day end_day ids filters entities_filter c timestamp,
       ids <> [] ->
       _get_events w start_day end_day (Some ids) filters entities_filter (Some c) timestamp
       = Raise AssertionError).
Proof.
  intros Hclaim.
  specialize (Hclaim (bare_world [] [unnamed_row; named_row]) 0 10 ["light.kitchen"]
                     None None EmptyString true).
  apply (f_equal entries) in Hclaim; [|discriminate].
  vm_compute in Hclaim. discriminate Hclaim.
Qed.

Example get_events_empty_context_id_output :
  entries (_get_events (bare_world [] [unnamed_row; named_row]) 0 10
                       (Some ["light.kitchen"]) None None (Some EmptyString) true)
  = Ok [[("when", VNum 1); ("name", VStr "kitchen"); ("state", VStr "on");
         ("entity_id", VStr "light.kitchen")];
        [("when", VNum 2); ("name", VStr "Kitchen Light"); ("state", VStr "off");
         ("entity_id", VStr "light.kitchen")]].
Proof. vm_compute. reflexivity. Qed.

(** C9 (amended). A call of [_get_events] with a non-empty [entity_ids] and
    a non-empty [context_id] raises the assertion error; this holds in every
    environment, so whatever the row source would deliver, and no entry is
    returned. *)
Theorem get_events_rejects_both (w : World) (start_day end_day : Z) (ids : list string)
    (filters : option Filters) (entities_filter : option (string -> bool)) (c : string)
    (timestamp : bool) :
  ids <> [] -> c <> EmptyString ->
  _get_events w start_day end_day (Some ids) filters entities_filter (Some c) timestamp
  = Raise AssertionError.
Proof.
  intros Hids Hc. unfold _get_events.
  destruct ids as [|id ids]; [done|].
  destruct c as [|a c]; [done|]. reflexivity.
Qed.

Lemma get_events_rejects_both_witness :
  _get_events (bare_world [] [unnamed_row; named_row]) 0 10 (Some ["light.kitchen"])
              None None (Some "c1") true
  = Raise AssertionError.
Proof.
  apply (get_events_rejects_both (bare_world [] [unnamed_row; named_row]) 0 10
           ["light.kitchen"] None None "c1" true); discriminate.
Defined.

(** ** System start and stop *)

Example start_described_output :
  entries (_get_events start_described 0 10 None None None None true)
  = Ok [[("when", VNum 7); ("name", VStr "Supervisor"); ("domain", VStr "supervisor")]].
Proof. vm_compute. reflexivity. Qed.

(** C8 as worded fails when the describer registry holds the start
    event type: [_humanify] looks the type up in the registry before it
    compares it with the two lifecycle types. *)
Lemma lifecycle_entry_not_for_described :
  ~ (forall (w : World) format_time row s,
       event_type row = EVENT_HOMEASSISTANT_START ->
       _humanify_row w format_time row s
       = Ok ([lifecycle_entry (format_time row) "started"], s)).
Proof.
  intros Hclaim.
  specialize (Hclaim start_described (_row_time_fired_timestamp start_described)
                     (blank_row EVENT_HOMEASSISTANT_START 7 None) initial_state eq_refl).
  apply (f_equal entries_in) in Hclaim.
  vm_compute in Hclaim. discriminate Hclaim.
Qed.

Lemma lifecycle_entry_fields when message :
  fields (lifecycle_entry when message)
  = [("when", when); ("name", VStr "Home Assistant"); ("message", VStr message);
     ("domain", VStr HA_DOMAIN)].
Proof. reflexivity. Qed.

Lemma lifecycle_humanify_row w format_time row s :
  str_in (event_type row) HOMEASSISTANT_EVENTS = true ->
  external_events w !! event_type row = None ->
  _humanify_row w format_time row s
  = Ok ([lifecycle_entry (format_time row) (lifecycle_message row)], s).
Proof.
  intros Hev Hnone. unfold _humanify_row, lifecycle_message. rewrite Hnone.
  unfold str_in, HOMEASSISTANT_EVENTS in Hev. simpl in Hev.
  destruct (String.eqb_spec (event_type row) EVENT_HOMEASSISTANT_START) as [->|Hstart]; [done|].
  destruct (String.eqb_spec (event_type row) EVENT_HOMEASSISTANT_STOP) as [->|Hstop]; [done|].
  discriminate Hev.
Qed.

Lemma lifecycle_process_row w format_time row s :
  str_in (event_type row) HOMEASSISTANT_EVENTS = true ->
  external_events w !! event_type row = None ->
  context_only row = false ->
  process_row w None format_time row s
  = Ok ([lifecycle_entry (format_time row) (lifecycle_message row)], indexed row s).
Proof.
  intros Hev Hnone Hco.
  unfold process_row, yield_rows_step, bind, modify, ret. rewrite Hco.
  unfold _keep_row. rewrite Hev. cbn [filter_accepts].
  replace (negb (String.eqb (event_type row) EVENT_CALL_SERVICE)) with true; cycle 1.
  { unfold str_in, HOMEASSISTANT_EVENTS in Hev. simpl in Hev.
    destruct (String.eqb_spec (event_type row) EVENT_HOMEASSISTANT_START) as [->|_]; [done|].
    destruct (String.eqb_spec (event_type row) EVENT_HOMEASSISTANT_STOP) as [->|_]; [done|].
    discriminate Hev. }
  rewrite orb_true_r. cbn [andb].
  by apply lifecycle_humanify_row.
Qed.

(** C8 (amended). Provided no describer is registered for its event type,
    a system-start or system-stop row that reaches the humanizer yields the
    fixed entry: the formatted time, the name Home Assistant, the message
    started or stopped, and the domain homeassistant; no context field is
    added and no cache is touched.  Two such rows scanned one after the
    other, in either order, yield their two entries: nothing is merged. *)
Theorem lifecycle_rows_fixed_entries (w : World) (format_time : Row -> Value) :
  external_events w !! EVENT_HOMEASSISTANT_START = None ->
  external_events w !! EVENT_HOMEASSISTANT_STOP = None ->
  (forall row s,
     str_in (event_type row) HOMEASSISTANT_EVENTS = true ->
     _humanify_row w format_time row s
     = Ok ([lifecycle_entry (format_time row) (lifecycle_message row)], s)
     /\ fields (lifecycle_entry (format_time row) (lifecycle_message row))
        = [("when", format_time row); ("name", VStr "Home Assistant");
           ("message", VStr (lifecycle_message row)); ("domain", VStr HA_DOMAIN)])
  /\ (forall first second s,
        str_in (event_type first) HOMEASSISTANT_EVENTS = true ->
        str_in (event_type second) HOMEASSISTANT_EVENTS = true ->
        context_only first = false -> context_only second = false ->
        humanify_rows w None format_time [first; second] s
        = Ok ([lifecycle_entry (format_time first) (lifecycle_message first);
               lifecycle_entry (format_time second) (lifecycle_message second)],
              indexed second (indexed first s))).
Proof.
  intros Hstart Hstop.
  assert (Hnone : forall row, str_in (event_type row) HOMEASSISTANT_EVENTS = true ->
                              external_events w !! event_type row = None).
  { intros row Hev. unfold str_in, HOMEASSISTANT_EVENTS in Hev. simpl in Hev.
    destruct (String.eqb_spec (event_type row) EVENT_HOMEASSISTANT_START) as [->|_]; [done|].
    destruct (String.eqb_spec (event_type row) EVENT_HOMEASSISTANT_STOP) as [->|_]; [done|].
    discriminate Hev. }
  split.
  - intros row s Hev. split; [|apply lifecycle_entry_fields].
    apply lifecycle_humanify_row; auto.
  - intros first second s Hf Hs Hcf Hcs.
    cbn [humanify_rows]. unfold bind.
    rewrite (lifecycle_process_row w format_time first s Hf (Hnone _ Hf) Hcf).
    rewrite (lifecycle_process_row w format_time second _ Hs (Hnone _ Hs) Hcs).
    reflexivity.
Qed.

Lemma lifecycle_rows_fixed_entries_witness :
  let w := bare_world [] [] in
  let stop := blank_row EVENT_HOMEASSISTANT_STOP 3 None in
  let start := blank_row EVENT_HOMEASSISTANT_START 4 None in
  humanify_rows w None (_row_time_fired_timestamp w) [stop; start] initial_state
  = Ok ([lifecycle_entry (VNum 3) "stopped"; lifecycle_entry (VNum 4) "started"],
        indexed start (indexed stop initial_state)).
Proof.
  intros w stop start.
  exact (proj2 (lifecycle_rows_fixed_entries w (_row_time_fired_timestamp w) eq_refl eq_refl)
               stop start initial_state eq_refl eq_refl eq_refl eq_refl).
Defined.

(** ** Continuous sensors *)

Lemma _is_sensor_continuous_spec w entity_id :
  _is_sensor_continuous w entity_id = true <-> has_state_class w entity_id.
Proof.
  unfold _is_sensor_continuous, has_state_class, dict_get. split.
  - destruct (registry_get w entity_id) as [entry|] eqn:Hentry; [|done].
    destruct (capabilities entry) as [caps|] eqn:Hcaps; [|done].
    destruct (caps !! ATTR_STATE_CLASS) as [v|] eqn:Hv; [|done].
    intros Hnone. exists entry, caps, v.
    split; [done|]. split; [done|]. split; [done|].
    intros Hv'. rewrite Hv' in Hnone. discriminate Hnone.
  - intros (entry & caps & v & -> & -> & -> & Hv). by destruct v.
Qed.

Lemma sensors_ok_initial w : sensors_ok w initial_state.
Proof. intros e b. simpl. by rewrite lookup_empty. Qed.

(** For an entity of the sensor domain, in a state whose memo agrees with
    the registry, the classification is the registry's. *)
Lemma classify_continuous_sensor w entity_id object_id s :
  sensors_ok w s ->
  split_entity_id w entity_id = Ok (SENSOR_DOMAIN, object_id) ->
  exists s', classify_continuous w entity_id s
             = Ok (Some (_is_sensor_continuous w entity_id), s')
             /\ context_lookup s' = context_lookup s.
Proof.
  intros Hok Hsplit. unfold classify_continuous, bind, get_state.
  destruct (continuous_sensors s !! entity_id) as [b|] eqn:Hmemo.
  - exists s. by rewrite (Hok _ _ Hmemo).
  - unfold lift. rewrite Hsplit. simpl. eauto.
Qed.

Lemma EntityNameCache_get_returns w entity_id parts row s :
  split_entity_id w entity_id = Ok parts ->
  exists name s', EntityNameCache_get w entity_id row s = Ok (name, s').
Proof.
  intros Hsplit. unfold EntityNameCache_get, bind, get_state, modify, ret, lift.
  rewrite Hsplit. repeat case_match; eauto.
Qed.

Lemma effective_context_row_lookup s s' row :
  context_lookup s' = context_lookup s ->
  effective_context_row s' row = effective_context_row s row.
Proof. unfold effective_context_row, lookup_row. by intros ->. Qed.

Lemma state_changed_data_entity_id when name entity_id row :
  state_changed_data when name entity_id row !! "entity_id" = Some (VStr entity_id).
Proof.
  unfold state_changed_data.
  destruct (opt_truthy (_row_attributes_extract row ICON_JSON_EXTRACT)).
  - rewrite lookup_insert_ne by done. apply lookup_insert_eq.
  - apply lookup_insert_eq.
Qed.

(** C5 as worded fails in its second half: the entry of a kept row of a
    sensor without a state class goes through the augmenter before it is
    yielded, and the augmenter decodes the payload of a service call that
    opened the context of the row.  When that payload is not JSON the
    decoder raises, and the pass ends without an entry for the row. *)
Lemma sensor_entry_lost_to_undecodable_context :
  ~ (forall (w : World) (entities_filter : option (string -> bool))
            (format_time : Row -> Value) (scanned : list Row) (out0 : list Dict)
            (s : PassState) (row : Row) (sensor_id object_id : string),
       humanify_rows w entities_filter format_time scanned initial_state = Ok (out0, s) ->
       event_type row = EVENT_STATE_CHANGED ->
       entity_id row = Some sensor_id ->
       split_entity_id w sensor_id = Ok (SENSOR_DOMAIN, object_id) ->
       ~ has_state_class w sensor_id ->
       context_only row = false ->
       exists data s', process_row w entities_filter format_time row s = Ok ([data], s')).
Proof.
  intros Hclaim.
  pose (w := bare_world [] []).
  destruct (Hclaim w None (_row_time_fired_timestamp w) [broken_call_row] []
                   (indexed broken_call_row initial_state) caused_door_row
                   "sensor.front_door" "front_door" eq_refl eq_refl eq_refl eq_refl)
    as (data & s' & Hrun).
  - intros Hclass. apply _is_sensor_continuous_spec in Hclass.
    vm_compute in Hclass. discriminate Hclass.
  - reflexivity.
  - apply (f_equal returned) in Hrun. vm_compute in Hrun. discriminate Hrun.
Qed.

Example sensor_entry_lost_pass :
  entries (_get_events (bare_world [] [broken_call_row; caused_door_row]) 0 10
                       None None None None true)
  = Raise JSONDecodeError.
Proof. vm_compute. reflexivity. Qed.

(** C5 (amended). In any state the pass can reach, a state-changed row of
    an entity of the sensor domain is skipped when the registry entry of the
    entity has a non-null state class.  When it has none and the row is kept
    (it is not a context-only row), the row's entry is built and handed to
    the augmenter, and the augmented entry is the one entry yielded for the
    row, unless the augmenter raises, which aborts the pass with that
    exception; in particular the entry is yielded whenever the row has no
    context row to be attributed to. *)
Theorem continuous_sensor_rows (w : World) (entities_filter : option (string -> bool))
    (format_time : Row -> Value) (scanned : list Row) (out0 : list Dict) (s : PassState)
    (row : Row) (sensor_id object_id : string) :
  humanify_rows w entities_filter format_time scanned initial_state = Ok (out0, s) ->
  event_type row = EVENT_STATE_CHANGED ->
  entity_id row = Some sensor_id ->
  split_entity_id w sensor_id = Ok (SENSOR_DOMAIN, object_id) ->
  (has_state_class w sensor_id ->
   exists s', process_row w entities_filter format_time row s = Ok ([], s'))
  /\ (~ has_state_class w sensor_id -> context_only row = false ->
      exists data s1,
        data !! "entity_id" = Some (VStr sensor_id)
        /\ match augment w data (VStr sensor_id) row s1 with
           | Ok (augmented, s2) =>
               process_row w entities_filter format_time row s = Ok ([augmented], s2)
           | Raise e =>
               process_row w entities_filter format_time row s = Raise e
           end
        /\ (effective_context_row (indexed row s) row = None ->
            process_row w entities_filter format_time row s
            = Ok ([with_context_user data row], s1))).
Proof.
  intros Hrun Hev Hent Hsplit.
  apply humanify_rows_state in Hrun as (_ & _ & Hok).
  specialize (Hok (sensors_ok_initial w)).
  assert (Hok' : sensors_ok w (indexed row s)) by exact Hok.
  destruct (classify_continuous_sensor w sensor_id object_id _ Hok' Hsplit)
    as (s0 & Hclass & Hlook0).
  assert (Hrow : context_only row = false ->
            process_row w entities_filter format_time row s
            = _humanify_row w format_time row (indexed row s)).
  { intros Hkept. unfold process_row, yield_rows_step, bind, modify, ret.
    by rewrite Hkept, Hev. }
  assert (Hhum : _humanify_row w format_time row (indexed row s)
            = if _is_sensor_continuous w sensor_id then Ok ([], s0)
              else bind (EntityNameCache_get w sensor_id row)
                     (fun name =>
                        bind (augment w (state_changed_data (format_time row) name
                                           sensor_id row) (VStr sensor_id) row)
                             (fun data => ret [data])) s0).
  { unfold _humanify_row, row_entity_id. rewrite Hev, Hent.
    cbn [String.eqb Ascii.eqb Bool.eqb EVENT_STATE_CHANGED].
    rewrite (bind_step _ _ _ _ _ Hclass).
    by destruct (_is_sensor_continuous w sensor_id). }
  split.
  - intros Hcont. apply _is_sensor_continuous_spec in Hcont.
    destruct (context_only row) eqn:Hco.
    + exists (indexed row s).
      unfold process_row, yield_rows_step, bind, modify, ret. by rewrite Hco.
    + exists s0. by rewrite Hrow, Hhum, Hcont.
  - intros Hnot Hkept.
    assert (Hfalse : _is_sensor_continuous w sensor_id = false).
    { destruct (_is_sensor_continuous w sensor_id) eqn:Hc; [|done].
      by apply _is_sensor_continuous_spec in Hc. }
    destruct (EntityNameCache_get_returns w sensor_id _ row s0 Hsplit)
      as (name & s1 & Hname).
    exists (state_changed_data (format_time row) name sensor_id row), s1.
    rewrite (Hrow Hkept), Hhum, Hfalse, (bind_step _ _ _ _ _ Hname).
    split; [apply state_changed_data_entity_id|split].
    + unfold bind, ret.
      by destruct (augment w _ (VStr sensor_id) row s1) as [[augmented s2]|e].
    + intros Hnone.
      apply EntityNameCache_get_step in Hname as (_ & Hlook1 & _).
      unfold bind at 1. unfold augment, bind, get_state.
      rewrite (effective_context_row_lookup (indexed row s) s1 row), Hnone; [done|].
      by rewrite Hlook1, Hlook0.
Qed.

Example continuous_sensor_output :
  entries (_get_events (metered_world [power_row; door_row; power_row]) 0 10
                       None None None None true)
  = Ok [[("when", VNum 2); ("name", VStr "front door"); ("state", VStr "open");
         ("entity_id", VStr "sensor.front_door")]].
Proof. vm_compute. reflexivity. Qed.

Lemma continuous_sensor_rows_witness :
  let w := metered_world [] in
  let fmt := _row_time_fired_timestamp w in
  (exists s', process_row w None fmt power_row initial_state = Ok ([], s'))
  /\ (exists data s1,
        data !! "entity_id" = Some (VStr "sensor.front_door")
        /\ process_row w None fmt door_row initial_state
           = Ok ([with_context_user data door_row], s1)).
Proof.
  intros w fmt. split.
  - apply (continuous_sensor_rows w None fmt [] [] initial_state power_row
             "sensor.power" "power" eq_refl eq_refl eq_refl eq_refl).
    apply _is_sensor_continuous_spec. vm_compute. reflexivity.
  - destruct (continuous_sensor_rows w None fmt [] [] initial_state door_row
                "sensor.front_door" "front_door" eq_refl eq_refl eq_refl eq_refl)
      as [_ Hkept].
    destruct Hkept as (data & s1 & Hid & _ & Hemit).
    + intros Hclass. apply _is_sensor_continuous_spec in Hclass.
      vm_compute in Hclass. discriminate Hclass.
    + reflexivity.
    + exists data, s1. split; [exact Hid|].
      apply Hemit. vm_compute. reflexivity.
Defined.

(** ** Entity name cache *)

(** A call for an entity that has no memoized name. *)
Lemma EntityNameCache_get_miss w entity_id row s :
  names s !! entity_id = None ->
  EntityNameCache_get w entity_id row s
  = match live_friendly_name w entity_id with
    | Some friendly_name => Ok (friendly_name, set_names <[entity_id := friendly_name]> s)
    | None =>
        match _row_attributes_extract row FRIENDLY_NAME_JSON_EXTRACT with
        | Some extracted =>
            Ok (VStr extracted, set_names <[entity_id := VStr extracted]> s)
        | None =>
            match split_entity_id w entity_id with
            | Ok parts => Ok (VStr (replace_underscore (snd parts)), s)
            | Raise e => Raise e
            end
        end
    end.
Proof.
  intros Hmiss. unfold EntityNameCache_get, bind, get_state, modify, ret, lift.
  rewrite Hmiss.
  destruct (live_friendly_name w entity_id); [done|].
  unfold _row_attributes_extract, FRIENDLY_NAME_JSON_EXTRACT.
  rewrite opt_truthy_extract.
  destruct (json_extract _ _); [done|].
  by destruct (split_entity_id w entity_id).
Qed.

(** A call for an entity with a memoized name. *)
Lemma EntityNameCache_get_hit w entity_id row s name :
  names s !! entity_id = Some name ->
  EntityNameCache_get w entity_id row s = Ok (name, s).
Proof.
  intros Hhit. unfold EntityNameCache_get, bind, get_state, ret. by rewrite Hhit.
Qed.

(** C2 as worded fails: the synthesized name is returned without
    being stored, so a later call with a row that carries a friendly name
    answers differently. *)
Lemma entity_name_fallback_not_memoized :
  ~ (forall (w : World) entity_id row1 row2 s name1 s1 name2 s2,
       EntityNameCache_get w entity_id row1 s = Ok (name1, s1) ->
       EntityNameCache_get w entity_id row2 s1 = Ok (name2, s2) ->
       name2 = name1).
Proof.
  intros Hclaim.
  specialize (Hclaim (bare_world [] []) "light.kitchen" unnamed_row named_row initial_state
                     (VStr "kitchen") initial_state (VStr "Kitchen Light")
                     (set_names <["light.kitchen" := VStr "Kitchen Light"]> initial_state)).
  assert (Hne : VStr "Kitchen Light" <> VStr "kitchen") by discriminate.
  apply Hne, Hclaim.
  - by rewrite EntityNameCache_get_miss.
  - by rewrite EntityNameCache_get_miss.
Qed.

Example entity_name_fallback_output :
  entries (_get_events (bare_world [] [unnamed_row; named_row]) 0 10 None None None None true)
  = Ok [[("when", VNum 1); ("name", VStr "kitchen"); ("state", VStr "on");
         ("entity_id", VStr "light.kitchen")];
        [("when", VNum 2); ("name", VStr "Kitchen Light"); ("state", VStr "off");
         ("entity_id", VStr "light.kitchen")]].
Proof. vm_compute. reflexivity. Qed.

(** C2 (amended). A call of [EntityNameCache.get] for an entity without a
    memoized name returns the live friendly name when the entity has a live
    state with a non-empty one, else the friendly name found in the row's
    attribute payload, else the object id of the entity id with underscores
    turned into blanks.  The first two are memoized: every later call for
    the entity in the pass (any state whose memo extends the one left by the
    call) returns the same name whatever the row, and changes nothing.  The
    synthesized name is not memoized: the call leaves the state as it was. *)
Theorem entity_name_cache_get (w : World) (entity_id : string) (row : Row) (s : PassState) :
  names s !! entity_id = None ->
  (forall friendly_name,
     live_friendly_name w entity_id = Some friendly_name ->
     EntityNameCache_get w entity_id row s
     = Ok (friendly_name, set_names <[entity_id := friendly_name]> s))
  /\ (forall extracted,
        live_friendly_name w entity_id = None ->
        _row_attributes_extract row FRIENDLY_NAME_JSON_EXTRACT = Some extracted ->
        EntityNameCache_get w entity_id row s
        = Ok (VStr extracted, set_names <[entity_id := VStr extracted]> s))
  /\ (forall domain object_id,
        live_friendly_name w entity_id = None ->
        _row_attributes_extract row FRIENDLY_NAME_JSON_EXTRACT = None ->
        split_entity_id w entity_id = Ok (domain, object_id) ->
        EntityNameCache_get w entity_id row s
        = Ok (VStr (replace_underscore object_id), s))
  /\ (forall name s1,
        EntityNameCache_get w entity_id row s = Ok (name, s1) ->
        (live_friendly_name w entity_id <> None
         \/ _row_attributes_extract row FRIENDLY_NAME_JSON_EXTRACT <> None) ->
        forall later_row s2,
          names s1 ⊆ names s2 ->
          EntityNameCache_get w entity_id later_row s2 = Ok (name, s2)).
Proof.
  intros Hmiss. pose proof (EntityNameCache_get_miss w entity_id row s Hmiss) as Hget.
  split; [|split; [|split]].
  - intros n Hlive. by rewrite Hget, Hlive.
  - intros n Hlive Hrow. by rewrite Hget, Hlive, Hrow.
  - intros domain object_id Hlive Hrow Hsplit. by rewrite Hget, Hlive, Hrow, Hsplit.
  - intros name s1 Hrun Hsrc later_row s2 Hsub.
    apply EntityNameCache_get_hit.
    eapply lookup_weaken; [|exact Hsub].
    rewrite Hget in Hrun.
    destruct (live_friendly_name w entity_id) as [n|].
    { simplify_eq. simpl. apply lookup_insert_eq. }
    destruct (_row_attributes_extract row FRIENDLY_NAME_JSON_EXTRACT) as [n|].
    { simplify_eq. simpl. apply lookup_insert_eq. }
    destruct Hsrc as [Hsrc|Hsrc]; by destruct Hsrc.
Qed.

Lemma entity_name_cache_get_witness :
  let w := bare_world [] [] in
  EntityNameCache_get w "light.kitchen" named_row initial_state
  = Ok (VStr "Kitchen Light",
        set_names <["light.kitchen" := VStr "Kitchen Light"]> initial_state)
  /\ EntityNameCache_get w "light.kitchen" unnamed_row initial_state
     = Ok (VStr "kitchen", initial_state).
Proof.
  intros w.
  destruct (entity_name_cache_get w "light.kitchen" named_row initial_state eq_refl)
    as (_ & Hrow & _).
  destruct (entity_name_cache_get w "light.kitchen" unnamed_row initial_state eq_refl)
    as (_ & _ & Hsynth & _).
  split.
  - apply (Hrow "Kitchen Light"); reflexivity.
  - apply (Hsynth "light" "kitchen"); reflexivity.
Defined.

(** ** Lazy event payload and decode cache *)

Lemma LazyEventPartialState_init_eq w row s :
  LazyEventPartialState_init w row s
  = match source_of row with
    | None => Ok (lazy_view row ∅, s)
    | Some source =>
        match cache_hit s source with
        | Some cached => Ok (lazy_view row cached, s)
        | None =>
            match json_loads w source with
            | Some d => Ok (lazy_view row d, record_decode source d s)
            | None => Raise JSONDecodeError
            end
        end
    end.
Proof.
  unfold LazyEventPartialState_init, source_of, cache_hit, lazy_view.
  destruct (opt_truthy _) as [source|]; [|done].
  unfold bind, get_state, modify, ret, raise.
  destruct (event_data_cache s !! source) as [cached|].
  - destruct (dict_truthy cached); [done|]. by destruct (json_loads w source).
  - by destruct (json_loads w source).
Qed.

(** C3 as worded fails: the constructor itself decodes a payload
    that the cache does not hold, and stores the result. *)
Lemma lazy_event_constructor_not_lazy :
  ~ (forall (w : World) row s view s',
       LazyEventPartialState_init w row s = Ok (view, s') ->
       event_data_cache s' = event_data_cache s /\ loads_calls s' = loads_calls s).
Proof.
  intros Hclaim.
  destruct (Hclaim (bare_world [(turn_on_payload, turn_on_dict)] []) turn_on_row
                   initial_state (lazy_view turn_on_row turn_on_dict)
                   (record_decode turn_on_payload turn_on_dict initial_state))
    as [_ Hcalls].
  - by rewrite LazyEventPartialState_init_eq.
  - discriminate Hcalls.
Qed.

(** C3 (amended). The constructor of the lazy event payload decodes
    eagerly.  It performs no decoding and leaves the whole state unchanged
    when the row has no non-empty raw payload (the data is the empty
    mapping) and when the cache holds a non-empty mapping under the raw
    payload string (the data is that mapping).  Otherwise the constructor
    itself calls the decoder once on the raw payload string and stores the
    result in the cache under that string: the key is the payload, not the
    row. *)
Theorem lazy_event_constructor (w : World) (row : Row) (s : PassState) :
  (source_of row = None ->
   LazyEventPartialState_init w row s = Ok (lazy_view row ∅, s))
  /\ (forall source,
        source_of row = Some source ->
        (forall cached,
           event_data_cache s !! source = Some cached -> dict_truthy cached = true ->
           LazyEventPartialState_init w row s = Ok (lazy_view row cached, s))
        /\ (forall d,
              cache_hit s source = None -> json_loads w source = Some d ->
              LazyEventPartialState_init w row s
              = Ok (lazy_view row d, record_decode source d s)
              /\ event_data_cache (record_decode source d s)
                 = <[source := d]> (event_data_cache s)
              /\ loads_calls (record_decode source d s) = source :: loads_calls s
              /\ event_cache (record_decode source d s) = event_cache s)).
Proof.
  pose proof (LazyEventPartialState_init_eq w row s) as Hinit.
  split.
  - intros Hsrc. by rewrite Hinit, Hsrc.
  - intros source Hsrc. rewrite Hsrc in Hinit. split.
    + intros cached Hc Ht. rewrite Hinit. unfold cache_hit. by rewrite Hc, Ht.
    + intros d Hmiss Hd. rewrite Hinit, Hmiss, Hd. by repeat split.
Qed.

Lemma lazy_event_constructor_witness :
  let w := bare_world [(turn_on_payload, turn_on_dict)] [] in
  LazyEventPartialState_init w turn_on_row initial_state
  = Ok (lazy_view turn_on_row turn_on_dict,
        record_decode turn_on_payload turn_on_dict initial_state)
  /\ LazyEventPartialState_init w (blank_row EVENT_CALL_SERVICE 1 None) initial_state
     = Ok (lazy_view (blank_row EVENT_CALL_SERVICE 1 None) ∅, initial_state).
Proof.
  intros w. split.
  - destruct (lazy_event_constructor w turn_on_row initial_state) as [_ Hsome].
    destruct (Hsome turn_on_payload eq_refl) as [_ Hmiss].
    apply (Hmiss turn_on_dict); reflexivity.
  - apply (lazy_event_constructor w (blank_row EVENT_CALL_SERVICE 1 None) initial_state).
    reflexivity.
Defined.

(** C7 at the failing input: two rows share the raw payload of an empty
    object; both are converted, and the decoder is called for each of them,
    as the cached empty mapping does not pass the truthiness test. *)
Theorem empty_payload_decoded_twice :
  let w := doorbell_world [] in
  decodes_of (humanify_rows w None (_row_time_fired_timestamp w) doorbell_rows initial_state)
  = ["{}"; "{}"]
  /\ entries_in (humanify_rows w None (_row_time_fired_timestamp w) doorbell_rows
                               initial_state)
     = Ok [[("when", VNum 1); ("name", VStr "Doorbell"); ("message", VStr "pressed");
            ("domain", VStr "doorbell")];
           [("when", VNum 2); ("name", VStr "Doorbell"); ("message", VStr "pressed");
            ("domain", VStr "doorbell")]].
Proof. intros w. split; vm_compute; reflexivity. Qed.

(** *** What the decode cache does guarantee *)

Lemma decode_inv_initial w : decode_inv w initial_state.
Proof.
  repeat split.
  - intros source d. simpl. by rewrite lookup_empty.
  - intros source [].
  - intros. unfold calls_for. simpl. lia.
Qed.

Lemma decode_inv_same w s s' :
  event_data_cache s' = event_data_cache s -> loads_calls s' = loads_calls s ->
  decode_inv w s -> decode_inv w s'.
Proof. unfold decode_inv, calls_for. by intros -> ->. Qed.

Lemma calls_for_absent source s : ~ In source (loads_calls s) -> calls_for source s = 0%nat.
Proof.
  unfold calls_for. induction (loads_calls s) as [|called l IH]; [done|].
  intros Hnot. simpl.
  destruct (String.eqb_spec called source) as [->|_].
  - exfalso. apply Hnot. by left.
  - apply IH. intros Hin. apply Hnot. by right.
Qed.

Lemma decode_inv_record w s source d :
  cache_hit s source = None -> json_loads w source = Some d ->
  decode_inv w s -> decode_inv w (record_decode source d s).
Proof.
  intros Hmiss Hd (Hsound & Hlogged & Honce). repeat split; simpl.
  - intros source' d'. rewrite lookup_insert.
    case_decide; intros; simplify_eq; auto.
  - intros source' [->|Hin].
    + rewrite lookup_insert_eq. eauto.
    + rewrite lookup_insert. case_decide; eauto.
  - intros source' d' Hd' Htruthy. unfold calls_for. simpl.
    destruct (String.eqb_spec source source') as [<-|Hne].
    + simplify_eq. simpl.
      assert (Hzero : calls_for source s = 0%nat).
      { apply calls_for_absent. intros Hin.
        destruct (Hlogged _ Hin) as [d0 Hd0].
        pose proof (Hsound _ _ Hd0) as Hd0'. simplify_eq.
        unfold cache_hit in Hmiss. rewrite Hd0, Htruthy in Hmiss. discriminate Hmiss. }
      unfold calls_for in Hzero. lia.
    + by apply (Honce source' d').
Qed.

Lemma LazyEventPartialState_init_decode w row s view s' :
  LazyEventPartialState_init w row s = Ok (view, s') -> decode_inv w s -> decode_inv w s'.
Proof.
  rewrite LazyEventPartialState_init_eq. intros Hrun Hinv.
  destruct (source_of row) as [source|]; [|by simplify_eq].
  destruct (cache_hit s source) eqn:Hhit; [by simplify_eq|].
  destruct (json_loads w source) as [d|] eqn:Hd; [|done].
  simplify_eq. by apply decode_inv_record.
Qed.

Lemma EventCache_get_decode w row s event s' :
  EventCache_get w row s = Ok (event, s') -> decode_inv w s -> decode_inv w s'.
Proof.
  unfold EventCache_get. intros Hrun Hinv. inv_run.
  case_match; inv_run; [done|].
  match goal with
  | H : LazyEventPartialState_init _ _ _ = Ok (_, ?s1) |- _ =>
      apply (decode_inv_same w s1); [reflexivity|reflexivity|];
      exact (LazyEventPartialState_init_decode _ _ _ _ _ H Hinv)
  end.
Qed.

Lemma EntityNameCache_get_decode w entity_id row s name s' :
  EntityNameCache_get w entity_id row s = Ok (name, s') -> decode_inv w s -> decode_inv w s'.
Proof.
  unfold EntityNameCache_get. intros Hrun Hinv. inv_run.
  repeat (case_match; inv_run); auto.
Qed.

Lemma augment_decode w data entity_id row s data' s' :
  augment w data entity_id row s = Ok (data', s') -> decode_inv w s -> decode_inv w s'.
Proof.
  unfold augment, augment_from. intros Hrun Hinv. inv_run.
  repeat (case_match; inv_run);
    eauto 6 using EntityNameCache_get_decode, EventCache_get_decode.
Qed.

Lemma classify_continuous_decode w entity_id s r s' :
  classify_continuous w entity_id s = Ok (r, s') -> decode_inv w s -> decode_inv w s'.
Proof.
  unfold classify_continuous. intros Hrun Hinv. inv_run.
  repeat (case_match; inv_run); auto.
Qed.

Lemma process_row_decode w entities_filter format_time row s out s' :
  process_row w entities_filter format_time row s = Ok (out, s') ->
  decode_inv w s -> decode_inv w s'.
Proof.
  unfold process_row, yield_rows_step, _humanify_row. intros Hrun Hinv. inv_run.
  assert (Hinv' : decode_inv w (set_context_lookup
                    (setdefault (context_id row) (Some row)) s)) by exact Hinv.
  repeat (case_match; inv_run);
    eauto 8 using EntityNameCache_get_decode, EventCache_get_decode, augment_decode,
                  classify_continuous_decode.
Qed.

(** In a pass, a raw payload string that decodes to a non-empty mapping is
    decoded at most once, and every row that carries it is given the
    decoder's mapping for it. *)
Lemma decode_once_non_empty w entities_filter format_time rows out s :
  humanify_rows w entities_filter format_time rows initial_state = Ok (out, s) ->
  decode_inv w s.
Proof.
  assert (Hgen : forall s0, humanify_rows w entities_filter format_time rows s0 = Ok (out, s) ->
                            decode_inv w s0 -> decode_inv w s).
  { revert out. induction rows as [|row rows IH]; intros out s0 Hrun Hinv;
      simpl in Hrun; inv_run; [done|].
    eauto using process_row_decode. }
  intros Hrun. eapply Hgen; [exact Hrun|apply decode_inv_initial].
Qed.

(** Two rows with the same raw payload string are given equal mappings:
    each view built in a pass holds what the decoder returns for the
    payload of its row. *)
Lemma lazy_view_data w row s view s' source :
  decode_inv w s ->
  LazyEventPartialState_init w row s = Ok (view, s') ->
  source_of row = Some source ->
  json_loads w source = Some (lz_data view).
Proof.
  intros (Hsound & _ & _). rewrite LazyEventPartialState_init_eq. intros Hrun Hsrc.
  rewrite Hsrc in Hrun. unfold cache_hit in Hrun.
  destruct (event_data_cache s !! source) as [cached|] eqn:Hc.
  - destruct (dict_truthy cached); [simplify_eq; simpl; eauto|].
    destruct (json_loads w source); by simplify_eq.
  - destruct (json_loads w source); by simplify_eq.
Qed.

(* ===================================================================== *)
(** * Further properties *)
(* ===================================================================== *)

(** ** The extraction patterns, as a specification *)

Lemma string_app_cons a (s t : string) : String a s ++ t = String a (s ++ t).
Proof. reflexivity. Qed.

Lemma string_app_nil (s : string) : EmptyString ++ s = s.
Proof. reflexivity. Qed.

Lemma string_app_assoc (a b c : string) : (a ++ b) ++ c = a ++ (b ++ c).
Proof.
  induction a as [|x a IH]; [done|].
  by rewrite !string_app_cons, IH.
Qed.

Lemma strip_prefix_app p s : strip_prefix p (p ++ s) = Some s.
Proof.
  induction p as [|a p IH]; [done|].
  rewrite string_app_cons. simpl. by rewrite Ascii.eqb_refl.
Qed.

Lemma strip_prefix_Some p s r : strip_prefix p s = Some r -> s = p ++ r.
Proof.
  revert s. induction p as [|a p IH]; intros s; simpl.
  - by intros [= ->].
  - destruct s as [|b s]; [done|].
    destruct (Ascii.eqb_spec a b) as [->|_]; [|done].
    intros Hs. by rewrite (IH _ Hs).
Qed.

Lemma span_unquoted_app v post :
  quote_free v = true ->
  span_unquoted (v ++ String dquote post) = (v, String dquote post).
Proof.
  induction v as [|a v IH].
  - intros _. rewrite string_app_nil. simpl. by rewrite ?Ascii.eqb_refl.
  - simpl. intros [Ha Hv]%andb_true_iff. rewrite ?string_app_cons. simpl.
    destruct (Ascii.eqb a dquote); [done|]. by rewrite (IH Hv).
Qed.

Lemma span_unquoted_spec s run rest :
  span_unquoted s = (run, rest) ->
  s = run ++ rest /\ quote_free run = true
  /\ (rest = EmptyString \/ exists r, rest = String dquote r).
Proof.
  revert run rest. induction s as [|a s IH]; intros run rest; simpl.
  - intros [= <- <-]. auto.
  - destruct (Ascii.eqb_spec a dquote) as [->|Hne].
    + intros [= <- <-]. eauto.
    + destruct (span_unquoted s) as [run' rest'] eqn:Hs.
      intros [= <- <-].
      destruct (IH _ _ eq_refl) as (-> & Hq & Hrest).
      repeat split; auto. simpl.
      rewrite Hq. by destruct (Ascii.eqb_spec a dquote).
Qed.

(** The key of a field, in quotes and followed by the colon. *)
Lemma quoted_key_colon key rest :
  quoted key ++ ":" ++ rest = String dquote (key ++ String dquote ":") ++ rest.
Proof.
  unfold quoted. rewrite !string_app_cons. f_equal.
  rewrite !string_app_assoc. by rewrite !string_app_cons, !string_app_nil.
Qed.

Lemma match_here_field key value sep post :
  sep = EmptyString \/ sep = " " ->
  value <> EmptyString -> quote_free value = true ->
  match_here key (quoted key ++ ":" ++ sep ++ quoted value ++ post) = Some value.
Proof.
  intros Hsep Hne Hq. unfold match_here.
  rewrite quoted_key_colon, strip_prefix_app.
  assert (Hval : match span_unquoted (value ++ String dquote post) with
                 | (String c run, String _ _) => Some (String c run)
                 | _ => None
                 end = Some value).
  { rewrite (span_unquoted_app _ _ Hq). by destruct value. }
  unfold quoted.
  destruct Hsep as [-> | ->];
    rewrite ?string_app_nil, ?string_app_cons, ?string_app_nil, string_app_assoc,
      ?string_app_cons, ?string_app_nil.
  - replace (Ascii.eqb dquote " ") with false by reflexivity.
    rewrite Ascii.eqb_refl. exact Hval.
  - rewrite !Ascii.eqb_refl. exact Hval.
Qed.

Lemma match_here_unquoted key a s :
  Ascii.eqb a dquote = false -> match_here key (String a s) = None.
Proof.
  intros Ha. unfold match_here. cbn [strip_prefix].
  rewrite Ascii.eqb_sym, Ha. reflexivity.
Qed.

(** A search skips a prefix without double quote. *)
Lemma json_extract_skip key pre s :
  quote_free pre = true -> json_extract key (pre ++ s) = json_extract key s.
Proof.
  induction pre as [|a pre IH]; [done|].
  intros [Ha Hpre]%andb_true_iff. apply negb_true_iff in Ha.
  rewrite string_app_cons.
  cbn [json_extract]. rewrite (match_here_unquoted _ _ _ Ha). auto.
Qed.

(** X1. A field written as the quoted key, a colon, at most one blank and
    the quoted value is found by the pattern of its key, behind any text
    that holds no double quote and whatever follows: the value is
    extracted as it stands, provided it is not empty and holds no double
    quote. *)
Theorem json_extract_written_field (key value sep pre post : string) :
  sep = EmptyString \/ sep = " " ->
  value <> EmptyString -> quote_free value = true -> quote_free pre = true ->
  json_extract key (pre ++ quoted key ++ ":" ++ sep ++ quoted value ++ post) = Some value.
Proof.
  intros Hsep Hne Hq Hpre.
  rewrite (json_extract_skip _ _ _ Hpre).
  pose proof (match_here_field key value sep post Hsep Hne Hq) as Hm.
  destruct (quoted key ++ ":" ++ sep ++ quoted value ++ post) as [|a s]; cbn [json_extract];
    by rewrite Hm.
Qed.

Lemma json_extract_written_field_witness :
  json_extract "friendly_name"
    ("{" ++ quoted "friendly_name" ++ ":" ++ "" ++ quoted "Kitchen Light" ++ "}")
  = Some "Kitchen Light".
Proof.
  apply (json_extract_written_field "friendly_name" "Kitchen Light" "" "{" "}");
    [by left|discriminate|reflexivity|reflexivity].
Defined.

Lemma match_here_sound key s g :
  match_here key s = Some g ->
  exists sep post,
    s = quoted key ++ ":" ++ sep ++ quoted g ++ post
    /\ (sep = EmptyString \/ sep = " ")
    /\ g <> EmptyString /\ quote_free g = true.
Proof.
  unfold match_here.
  destruct (strip_prefix _ s) as [rest|] eqn:Hstrip; [|done].
  apply strip_prefix_Some in Hstrip. rewrite <- quoted_key_colon in Hstrip.
  intros Hm.
  assert (Hvalue : forall r,
            match r with
            | String a r' =>
                if Ascii.eqb a dquote
                then match span_unquoted r' with
                     | (String c run, String _ _) => Some (String c run)
                     | _ => None
                     end
                else None
            | EmptyString => None
            end = Some g ->
            exists post, r = quoted g ++ post /\ g <> EmptyString /\ quote_free g = true).
  { intros [|a r']; [done|].
    destruct (Ascii.eqb_spec a dquote) as [->|_]; [|done].
    destruct (span_unquoted r') as [run rest'] eqn:Hspan.
    destruct run as [|c run]; [done|]. destruct rest' as [|q rest']; [done|].
    intros [= <-].
    destruct (span_unquoted_spec _ _ _ Hspan) as (-> & Hq & [Hnil|[r Hr]]); [done|].
    injection Hr as -> ->.
    exists r. split; [|done].
    unfold quoted. by rewrite !string_app_cons, !string_app_assoc, !string_app_cons,
      !string_app_nil. }
  destruct rest as [|a r]; [discriminate Hm|].
  destruct (Ascii.eqb_spec a " ") as [->|Hblank].
  - destruct (Hvalue r Hm) as (post & Hr & Hne & Hq).
    exists " ", post. subst s. rewrite Hr. auto.
  - destruct (Hvalue (String a r) Hm) as (post & Hr & Hne & Hq).
    exists EmptyString, post. subst s. rewrite Hr. auto.
Qed.

(** X2. What a pattern extracts is written in the searched text: the text
    holds the quoted key, a colon, at most one blank and the extracted
    value in quotes; the value is never empty and holds no double quote. *)
Theorem json_extract_sound (key s g : string) :
  json_extract key s = Some g ->
  exists pre sep post,
    s = pre ++ quoted key ++ ":" ++ sep ++ quoted g ++ post
    /\ (sep = EmptyString \/ sep = " ")
    /\ g <> EmptyString /\ quote_free g = true.
Proof.
  induction s as [|a s IH]; cbn [json_extract].
  - destruct (match_here key EmptyString) eqn:Hm; [|done].
    intros [= ->]. destruct (match_here_sound _ _ _ Hm) as (sep & post & Hs & Hrest).
    exists EmptyString, sep, post. auto.
  - destruct (match_here key (String a s)) eqn:Hm.
    + intros [= ->]. destruct (match_here_sound _ _ _ Hm) as (sep & post & Hs & Hrest).
      exists EmptyString, sep, post. auto.
    + intros Hs. destruct (IH Hs) as (pre & sep & post & -> & Hrest).
      exists (String a pre), sep, post. auto.
Qed.

Lemma json_extract_sound_witness :
  exists pre sep post,
    turn_on_payload = pre ++ quoted "service" ++ ":" ++ sep ++ quoted "turn_on" ++ post
    /\ (sep = EmptyString \/ sep = " ")
    /\ "turn_on" <> EmptyString /\ quote_free "turn_on" = true.
Proof.
  apply (json_extract_sound "service" turn_on_payload "turn_on"). reflexivity.
Defined.

(** ** What a row can yield *)

Lemma context_only_process_row w entities_filter format_time row s :
  context_only row = true ->
  process_row w entities_filter format_time row s = Ok ([], indexed row s).
Proof.
  intros Hco. unfold process_row, yield_rows_step, bind, modify, ret. by rewrite Hco.
Qed.

(** X3. Context-only rows only seed the context lookup: a stream made of
    such rows yields no entry and raises nothing, whatever the rows hold
    (a state-changed row without entity id, a payload that does not
    decode), and leaves every cache as it was. *)
Theorem context_only_rows_only_index (w : World) (entities_filter : option (string -> bool))
    (format_time : Row -> Value) (rows : list Row) (s : PassState) :
  forallb context_only rows = true ->
  humanify_rows w entities_filter format_time rows s
  = Ok ([], foldl (fun s row => indexed row s) s rows).
Proof.
  revert s. induction rows as [|row rows IH]; intros s; [done|].
  cbn [forallb]. intros [Hco Hrows]%andb_true_iff.
  cbn [humanify_rows foldl]. unfold bind.
  rewrite (context_only_process_row _ _ _ _ _ Hco), (IH _ Hrows). reflexivity.
Qed.

Lemma context_only_rows_only_index_witness :
  let w := bare_world [] [] in
  humanify_rows w None (_row_time_fired_timestamp w) [seed_row; seed_row] initial_state
  = Ok ([], foldl (fun s row => indexed row s) initial_state [seed_row; seed_row]).
Proof.
  intros w.
  apply (context_only_rows_only_index w None (_row_time_fired_timestamp w)
           [seed_row; seed_row] initial_state).
  reflexivity.
Defined.

Lemma _humanify_row_length w format_time row s out s' :
  _humanify_row w format_time row s = Ok (out, s') -> (length out <= 1)%nat.
Proof.
  unfold _humanify_row. intros Hrun.
  repeat (case_match; inv_run); simpl; lia.
Qed.

Lemma process_row_length w entities_filter format_time row s out s' :
  process_row w entities_filter format_time row s = Ok (out, s') ->
  (length out <= if may_emit row then 1 else 0)%nat.
Proof.
  unfold process_row, yield_rows_step, may_emit. intros Hrun. inv_run.
  destruct (context_only row); inv_run; [simpl; lia|].
  destruct (String.eqb (event_type row) EVENT_CALL_SERVICE); simpl in *; inv_run;
    [simpl; lia|].
  case_match; inv_run; [|simpl; lia].
  eauto using _humanify_row_length.
Qed.

(** X4. A pass yields at most one entry per row, and none for context-only
    rows and service calls: the number of entries is bounded by the number
    of the other rows. *)
Theorem at_most_one_entry_per_row (w : World) (entities_filter : option (string -> bool))
    (format_time : Row -> Value) (rows : list Row) (s : PassState) (out : list Dict)
    (s' : PassState) :
  humanify_rows w entities_filter format_time rows s = Ok (out, s') ->
  (length out <= length (List.filter may_emit rows))%nat.
Proof.
  revert s out. induction rows as [|row rows IH]; intros s out Hrun;
    cbn [humanify_rows] in Hrun; inv_run; [simpl; lia|].
  match goal with H : process_row _ _ _ _ _ = Ok _ |- _ =>
    apply process_row_length in H end.
  match goal with H : humanify_rows _ _ _ _ _ = Ok _ |- _ => apply IH in H end.
  rewrite length_app. cbn [List.filter].
  destruct (may_emit row); simpl in *; lia.
Qed.

Lemma at_most_one_entry_per_row_witness :
  let w := bare_world [(turn_on_payload, turn_on_dict)] [] in
  exists out s',
    humanify_rows w None (_row_time_fired_timestamp w) scenario_rows initial_state
    = Ok (out, s')
    /\ (length out <= length (List.filter may_emit scenario_rows))%nat.
Proof.
  intros w.
  destruct (returned_Ok (humanify_rows w None (_row_time_fired_timestamp w) scenario_rows
                                       initial_state)) as ([out s'] & Hrun);
    [vm_compute; reflexivity|].
  exists out, s'. split; [exact Hrun|].
  exact (at_most_one_entry_per_row w None (_row_time_fired_timestamp w) scenario_rows
           initial_state out s' Hrun).
Defined.

(** X5. A state-changed row without entity id that is not context-only
    makes the pass fail with the assertion error as soon as the scan
    reaches it: the entries of the rows before it are lost, the rows after
    it are not looked at. *)
Theorem state_changed_without_entity_id (w : World)
    (entities_filter : option (string -> bool)) (format_time : Row -> Value)
    (before after : list Row) (row : Row) (s s1 : PassState) (out : list Dict) :
  event_type row = EVENT_STATE_CHANGED ->
  entity_id row = None ->
  context_only row = false ->
  humanify_rows w entities_filter format_time before s = Ok (out, s1) ->
  humanify_rows w entities_filter format_time (before ++ row :: after) s
  = Raise AssertionError.
Proof.
  intros Hev Hent Hco Hrun.
  rewrite humanify_rows_app, Hrun. cbn [humanify_rows].
  apply bind_Raise.
  unfold process_row, yield_rows_step, bind, modify, ret.
  rewrite Hco, Hev. cbn [String.eqb Ascii.eqb Bool.eqb EVENT_STATE_CHANGED
    EVENT_CALL_SERVICE negb andb orb].
  unfold _humanify_row, row_entity_id. by rewrite Hev, Hent.
Qed.

Lemma state_changed_without_entity_id_witness :
  let w := bare_world [] [] in
  humanify_rows w None (_row_time_fired_timestamp w)
                ([] ++ blank_row EVENT_STATE_CHANGED 3 None :: two_lights) initial_state
  = Raise AssertionError.
Proof.
  intros w.
  apply (state_changed_without_entity_id w None (_row_time_fired_timestamp w) [] two_lights
           (blank_row EVENT_STATE_CHANGED 3 None) initial_state initial_state []);
    reflexivity.
Defined.

(** ** The first row of a context *)

Lemma _rows_match_refl row : _rows_match row row = true.
Proof. unfold _rows_match. by rewrite !bool_decide_eq_true_2. Qed.

(** X6. In a pass, [augment] attributes nothing to a row that is the first
    to carry its context id (or carries none) and has no parent context
    id: right after [yield_rows] has indexed the row, the lookup resolves
    its context id to the row itself, and the entry only receives the
    context user id. *)
Theorem opening_row_not_attributed (w : World) (entities_filter : option (string -> bool))
    (format_time : Row -> Value) (scanned : list Row) (out0 : list Dict) (s : PassState)
    (data : Dict) (entity_id : Value) (row : Row) :
  humanify_rows w entities_filter format_time scanned initial_state = Ok (out0, s) ->
  first_with_context (context_id row) scanned = None ->
  opt_truthy (context_parent_id row) = None ->
  augment w data entity_id row (indexed row s)
  = Ok (with_context_user data row, indexed row s).
Proof.
  intros Hrun Hfirst Hparent.
  apply humanify_rows_state in Hrun as (_ & Hlook & _).
  unfold augment, bind, get_state, effective_context_row, lookup_row.
  cbn [indexed set_context_lookup context_lookup].
  rewrite setdefault_lookup, Hlook, index_rows_lookup, Hfirst.
  destruct (context_id row) as [c|] eqn:Hc.
  - cbn [initial_state context_lookup]. rewrite lookup_singleton_ne by done.
    cbn [option_map]. rewrite decide_True by done.
    by rewrite _rows_match_refl, Hparent.
  - cbn [initial_state context_lookup]. by rewrite lookup_singleton_eq.
Qed.

Lemma opening_row_not_attributed_witness :
  let w := bare_world [] [] in
  augment w ∅ (VStr "light.kitchen") unnamed_row (indexed unnamed_row initial_state)
  = Ok (with_context_user ∅ unnamed_row, indexed unnamed_row initial_state).
Proof.
  intros w.
  apply (opening_row_not_attributed w None (_row_time_fired_timestamp w) [] [] initial_state
           ∅ (VStr "light.kitchen") unnamed_row); reflexivity.
Defined.

(** X23. In a pass, an entry whose row carries a context id that an
    earlier row opened is attributed to that first row when the first row
    has an entity id (a state change) and is not the row itself: the entry
    receives the entity id of the first row, the name the name cache gives
    for it, and the event type of the first row; no context domain or
    service is written. *)
Theorem attributed_to_opening_state_change (w : World)
    (entities_filter : option (string -> bool)) (format_time : Row -> Value)
    (scanned : list Row) (out0 : list Dict) (s : PassState) (data : Dict)
    (own_id : Value) (row first : Row) (c first_entity : string) (data' : Dict)
    (s' : PassState) :
  humanify_rows w entities_filter format_time scanned initial_state = Ok (out0, s) ->
  context_id row = Some c ->
  first_with_context (Some c) scanned = Some first ->
  _rows_match row first = false ->
  opt_truthy (entity_id first) = Some first_entity ->
  augment w data own_id row (indexed row s) = Ok (data', s') ->
  data' !! "context_entity_id" = Some (VStr first_entity)
  /\ data' !! "context_event_type" = Some (VStr (event_type first))
  /\ (exists name s0,
        EntityNameCache_get w first_entity first (indexed row s) = Ok (name, s0)
        /\ data' !! "context_entity_id_name" = Some name)
  /\ data' !! "context_domain" = with_context_user data row !! "context_domain"
  /\ data' !! "context_service" = with_context_user data row !! "context_service".
Proof.
  intros Hscan Hc Hfirst Hmatch Hent Hrun.
  apply humanify_rows_state in Hscan as (_ & Hlook & _).
  assert (Heff : effective_context_row (indexed row s) row = Some first).
  { unfold effective_context_row, lookup_row.
    cbn [indexed set_context_lookup context_lookup].
    rewrite setdefault_lookup, Hlook, index_rows_lookup, Hc, Hfirst.
    cbn [initial_state context_lookup]. rewrite lookup_singleton_ne by done.
    cbn [option_map]. by rewrite Hmatch. }
  unfold augment in Hrun. inv_run. rewrite Heff in Hrun.
  unfold augment_from, row_entity_id in Hrun. rewrite Hent in Hrun. inv_run.
  split; [|split; [|split; [|split]]].
  - rewrite !lookup_insert_ne by done. apply lookup_insert_eq.
  - apply lookup_insert_eq.
  - eexists _, _. split; [eassumption|].
    rewrite lookup_insert_ne by done. apply lookup_insert_eq.
  - by rewrite !lookup_insert_ne.
  - by rewrite !lookup_insert_ne.
Qed.

Lemma attributed_to_opening_state_change_witness :
  let w := bare_world [] [] in
  let row := with_entity "light.hall" "on" None (blank_row EVENT_STATE_CHANGED 2 (Some "c1")) in
  exists data' s',
    augment w ∅ (VStr "light.hall") row (indexed row (indexed unnamed_row initial_state))
    = Ok (data', s')
    /\ data' !! "context_entity_id" = Some (VStr "light.kitchen")
    /\ data' !! "context_event_type" = Some (VStr EVENT_STATE_CHANGED).
Proof.
  intros w row.
  destruct (returned_Ok
              (augment w ∅ (VStr "light.hall") row
                       (indexed row (indexed unnamed_row initial_state))))
    as ([data' s'] & Hrun); [vm_compute; reflexivity|].
  exists data', s'. split; [exact Hrun|].
  assert (Hscan : exists out0,
            humanify_rows w None (_row_time_fired_timestamp w) [unnamed_row] initial_state
            = Ok (out0, indexed unnamed_row initial_state))
    by (eexists; reflexivity).
  destruct Hscan as [out0 Hscan].
  destruct (attributed_to_opening_state_change w None (_row_time_fired_timestamp w)
              [unnamed_row] out0 (indexed unnamed_row initial_state) ∅ (VStr "light.hall")
              row unnamed_row "c1" "light.kitchen" data' s' Hscan eq_refl eq_refl eq_refl
              eq_refl Hrun) as (Hentity & Htype & _).
  split; [exact Hentity|exact Htype].
Defined.

(** ** What the augmenter writes *)

Lemma augment_from_frame w data entity_id context_row s data' s' k :
  augment_from w data entity_id context_row s = Ok (data', s') ->
  ~ In k (CONTEXT_FIELDS ++ ["context_name"]) ->
  data' !! k = data !! k.
Proof.
  unfold augment_from. intros Hrun Hk.
  assert (Hne : forall key, In key (CONTEXT_FIELDS ++ ["context_name"]) -> key <> k).
  { intros key Hin ->. by apply Hk. }
  repeat (case_match; inv_run); try done;
    rewrite !lookup_insert_ne; try done; apply Hne; simpl; tauto.
Qed.

Lemma augment_frame w data entity_id row s data' s' k :
  augment w data entity_id row s = Ok (data', s') ->
  ~ In k AUGMENT_KEYS ->
  data' !! k = data !! k.
Proof.
  unfold augment. intros Hrun Hk. inv_run.
  assert (Huser : with_context_user data row !! k = data !! k).
  { unfold with_context_user. destruct (opt_truthy _); [|done].
    apply lookup_insert_ne. intros <-. apply Hk. simpl. tauto. }
  destruct (effective_context_row _ row) as [context_row|]; inv_run; [|exact Huser].
  rewrite <- Huser. eapply augment_from_frame; [eassumption|].
  intros Hin. apply Hk. simpl in *. tauto.
Qed.

(** X7. [augment] only writes context keys and removes nothing: every
    other field of the entry (its time, name, message, state, entity id,
    domain, icon, and whatever else a describer returned) is the same after
    the call, and every key the entry had it still has. *)
Theorem augment_keeps_other_fields (w : World) (data : Dict) (entity_id : Value) (row : Row)
    (s : PassState) (data' : Dict) (s' : PassState) :
  augment w data entity_id row s = Ok (data', s') ->
  (forall k, ~ In k AUGMENT_KEYS -> data' !! k = data !! k)
  /\ (forall k, is_Some (data !! k) -> is_Some (data' !! k)).
Proof.
  intros Hrun. split.
  - intros k. by apply (augment_frame w data entity_id row s data' s').
  - intros k Hk. unfold augment, augment_from, with_context_user in Hrun. inv_run.
    repeat (case_match; inv_run);
      repeat (apply lookup_insert_is_Some'; right); exact Hk.
Qed.

Lemma augment_keeps_other_fields_witness :
  let w := bare_world [] [] in
  exists data' s',
    augment w (lifecycle_entry (VNum 2) "pressed") VNone
            (with_entity "light.hall" "on" None (blank_row EVENT_STATE_CHANGED 2 (Some "c1")))
            (indexed unnamed_row initial_state)
    = Ok (data', s')
    /\ data' !! "message" = lifecycle_entry (VNum 2) "pressed" !! "message".
Proof.
  intros w.
  destruct (returned_Ok
              (augment w (lifecycle_entry (VNum 2) "pressed") VNone
                 (with_entity "light.hall" "on" None
                    (blank_row EVENT_STATE_CHANGED 2 (Some "c1")))
                 (indexed unnamed_row initial_state))) as ([data' s'] & Hrun);
    [vm_compute; reflexivity|].
  exists data', s'. split; [exact Hrun|].
  apply (proj1 (augment_keeps_other_fields w _ _ _ _ data' s' Hrun) "message").
  simpl. intros Hin. repeat (destruct Hin as [Hin|Hin]; [discriminate Hin|]). exact Hin.
Defined.

(** X8. Whatever else [augment] does, the entry carries the context user id
    of the row when the row has a non-empty one, and otherwise keeps the
    context user id it had. *)
Theorem augment_context_user_id (w : World) (data : Dict) (entity_id : Value) (row : Row)
    (s : PassState) (data' : Dict) (s' : PassState) :
  augment w data entity_id row s = Ok (data', s') ->
  data' !! "context_user_id"
  = match opt_truthy (context_user_id row) with
    | Some user_id => Some (VStr user_id)
    | None => data !! "context_user_id"
    end.
Proof.
  unfold augment. intros Hrun. inv_run.
  assert (Huser : with_context_user data row !! "context_user_id"
                  = match opt_truthy (context_user_id row) with
                    | Some user_id => Some (VStr user_id)
                    | None => data !! "context_user_id"
                    end).
  { unfold with_context_user. destruct (opt_truthy _); [|done]. apply lookup_insert_eq. }
  destruct (effective_context_row _ row) as [context_row|]; inv_run; [|exact Huser].
  rewrite <- Huser. eapply augment_from_frame; [eassumption|].
  simpl. intros Hin. repeat (destruct Hin as [Hin|Hin]; [discriminate Hin|]). exact Hin.
Qed.

Lemma augment_context_user_id_witness :
  let w := bare_world [] [] in
  let row := mkRow EVENT_STATE_CHANGED (Some 2) (Some "light.hall") (Some "on") (Some "c1")
                   (Some "user-7") None None None None None false in
  exists data' s',
    augment w ∅ (VStr "light.hall") row (indexed unnamed_row initial_state) = Ok (data', s')
    /\ data' !! "context_user_id" = Some (VStr "user-7").
Proof.
  intros w row.
  destruct (returned_Ok (augment w ∅ (VStr "light.hall") row
                                 (indexed unnamed_row initial_state)))
    as ([data' s'] & Hrun); [vm_compute; reflexivity|].
  exists data', s'. split; [exact Hrun|].
  exact (augment_context_user_id w ∅ (VStr "light.hall") row _ data' s' Hrun).
Defined.

(** X9. An entry is not attributed to the automation or script run that its
    own entity started: when the effective context row is an
    automation-triggered or script-started event without entity id column
    whose payload names the entity of the entry, [augment] adds nothing
    but the context user id and touches no cache. *)
Theorem own_automation_not_attributed (w : World) (data : Dict) (row : Row) (s : PassState)
    (context_row : Row) (own : string) :
  effective_context_row s row = Some context_row ->
  opt_truthy (entity_id context_row) = None ->
  str_in (event_type context_row) SCRIPT_AUTOMATION_EVENTS = true ->
  _row_event_data_extract context_row ENTITY_ID_JSON_EXTRACT = Some own ->
  augment w data (VStr own) row s = Ok (with_context_user data row, s).
Proof.
  intros Heff Hent Hscript Hown.
  unfold augment, bind, get_state. rewrite Heff.
  unfold augment_from, row_entity_id. rewrite Hent, Hown, Hscript.
  assert (Hcall : String.eqb (event_type context_row) EVENT_CALL_SERVICE = false).
  { unfold str_in, SCRIPT_AUTOMATION_EVENTS in Hscript. cbn [existsb] in Hscript.
    destruct (String.eqb_spec (event_type context_row) EVENT_AUTOMATION_TRIGGERED) as [->|_];
      [done|].
    destruct (String.eqb_spec (event_type context_row) EVENT_SCRIPT_STARTED) as [->|_];
      [done|discriminate Hscript]. }
  rewrite Hcall.
  unfold _row_event_data_extract, ENTITY_ID_JSON_EXTRACT in Hown.
  cbn [truthy]. rewrite (json_extract_truthy _ _ _ Hown).
  cbn [negb value_eq_str andb]. by rewrite String.eqb_refl.
Qed.

Lemma own_automation_not_attributed_witness :
  let w := bare_world [] [] in
  let row := with_entity "automation.morning" "on" None
                         (blank_row EVENT_STATE_CHANGED 6 (Some "c9")) in
  augment w ∅ (VStr "automation.morning") row (indexed automation_row initial_state)
  = Ok (with_context_user ∅ row, indexed automation_row initial_state).
Proof.
  intros w row.
  apply (own_automation_not_attributed w ∅ row (indexed automation_row initial_state)
           automation_row "automation.morning"); vm_compute; reflexivity.
Defined.

(** ** The row filter without a filter *)

(** X10. When no entities filter is configured, [_keep_row] drops exactly
    the rows that are no system start or stop, whose payload names no
    entity id and no domain, and whose event type has no describer. *)
Theorem keep_row_without_filter (w : World) (event_type : string) (row : Row) :
  _keep_row w event_type row None = true <->
  str_in event_type HOMEASSISTANT_EVENTS = true
  \/ is_Some (_row_event_data_extract row ENTITY_ID_JSON_EXTRACT)
  \/ is_Some (external_events w !! event_type)
  \/ is_Some (_row_event_data_extract row DOMAIN_JSON_EXTRACT).
Proof.
  unfold _keep_row.
  destruct (str_in event_type HOMEASSISTANT_EVENTS); [by split; auto|].
  assert (Hid : opt_truthy (_row_event_data_extract row ENTITY_ID_JSON_EXTRACT)
                = _row_event_data_extract row ENTITY_ID_JSON_EXTRACT).
  { unfold _row_event_data_extract, ENTITY_ID_JSON_EXTRACT. apply opt_truthy_extract. }
  rewrite Hid.
  destruct (_row_event_data_extract row ENTITY_ID_JSON_EXTRACT) as [entity_id|].
  { cbn [filter_accepts]. split; [intros _|done]. right; left. by eexists. }
  destruct (external_events w !! event_type) as [described|].
  { cbn [filter_accepts]. split; [intros _|done]. right; right; left. by eexists. }
  destruct (_row_event_data_extract row DOMAIN_JSON_EXTRACT) as [domain|].
  { cbn [filter_accepts]. split; [intros _|done]. right; right; right. by eexists. }
  split; [done|].
  intros [?|[[? ?]|[[? ?]|[? ?]]]]; done.
Qed.

(** ** The caches along a pass *)

Lemma pass_inv_initial w : pass_inv w initial_state.
Proof.
  split; [apply decode_inv_initial|split].
  - intros row event. cbn [initial_state event_cache]. by rewrite lookup_empty.
  - intros entity_id name. cbn [initial_state names]. by rewrite lookup_empty.
Qed.

Lemma pass_inv_set_context_lookup w f s :
  pass_inv w s -> pass_inv w (set_context_lookup f s).
Proof. by intros (? & ? & ?). Qed.

Lemma pass_inv_set_continuous_sensors w f s :
  pass_inv w s -> pass_inv w (set_continuous_sensors f s).
Proof. by intros (? & ? & ?). Qed.

Lemma payload_decodes_fun w row d1 d2 :
  payload_decodes w row d1 -> payload_decodes w row d2 -> d1 = d2.
Proof. unfold payload_decodes. destruct (source_of row); congruence. Qed.

(** The constructor builds the view of the row over the decoding of its
    payload, and keeps the invariant. *)
Lemma LazyEventPartialState_init_inv w row s view s' :
  pass_inv w s ->
  LazyEventPartialState_init w row s = Ok (view, s') ->
  pass_inv w s'
  /\ event_cache s' = event_cache s
  /\ exists d, view = lazy_view row d /\ payload_decodes w row d.
Proof.
  intros (Hdec & Hviews & Hnames) Hrun.
  pose proof (LazyEventPartialState_init_decode _ _ _ _ _ Hrun Hdec) as Hdec'.
  rewrite LazyEventPartialState_init_eq in Hrun. unfold payload_decodes.
  assert (Hkeep : event_cache s' = event_cache s /\ names s' = names s).
  { destruct (source_of row) as [source|]; [|by simplify_eq].
    destruct (cache_hit s source); [by simplify_eq|].
    destruct (json_loads w source); by simplify_eq. }
  destruct Hkeep as [Hcache Hnames'].
  split; [split; [exact Hdec'|split]|split; [exact Hcache|]].
  - unfold views_ok. by rewrite Hcache.
  - unfold names_ok. by rewrite Hnames'.
  - destruct (source_of row) as [source|]; [|simplify_eq; by eauto].
    unfold cache_hit in Hrun. destruct Hdec as (Hsound & _).
    destruct (event_data_cache s !! source) as [cached|] eqn:Hc.
    + destruct (dict_truthy cached); [simplify_eq; by eauto|].
      destruct (json_loads w source) as [d|] eqn:Hd; simplify_eq. eauto.
    + destruct (json_loads w source) as [d|] eqn:Hd; simplify_eq. eauto.
Qed.

Lemma EventCache_get_inv w row s event s' :
  pass_inv w s ->
  EventCache_get w row s = Ok (event, s') ->
  pass_inv w s'
  /\ event_cache s ⊆ event_cache s'
  /\ event_cache s' !! row = Some event
  /\ exists d, event = lazy_view row d /\ payload_decodes w row d.
Proof.
  intros Hinv Hrun. unfold EventCache_get in Hrun. inv_run.
  destruct (event_cache _ !! row) as [cached|] eqn:Hc; inv_run.
  - split; [exact Hinv|]. split; [done|]. split; [exact Hc|].
    destruct Hinv as (_ & Hviews & _). exact (Hviews _ _ Hc).
  - match goal with H : LazyEventPartialState_init _ _ _ = Ok _ |- _ =>
      destruct (LazyEventPartialState_init_inv _ _ _ _ _ Hinv H)
        as ((Hdec & Hviews & Hnames) & Hsame & d & -> & Hd) end.
    cbn [set_event_cache event_cache]. rewrite Hsame.
    split; [split; [exact Hdec|split; [|exact Hnames]]|].
    + intros row' event'. cbn [set_event_cache event_cache]. rewrite Hsame, lookup_insert.
      case_decide; [intros; simplify_eq; eauto|].
      intros Hrow'. apply Hviews. by rewrite Hsame.
    + split; [by apply insert_subseteq|]. split; [apply lookup_insert_eq|eauto].
Qed.

Lemma EntityNameCache_get_inv w entity_id row s name s' :
  pass_inv w s ->
  EntityNameCache_get w entity_id row s = Ok (name, s') ->
  pass_inv w s' /\ event_cache s' = event_cache s.
Proof.
  intros (Hdec & Hviews & Hnames) Hrun.
  destruct (names s !! entity_id) as [memo|] eqn:Hmemo.
  - rewrite (EntityNameCache_get_hit _ _ _ _ _ Hmemo) in Hrun. by simplify_eq.
  - rewrite (EntityNameCache_get_miss _ _ _ _ Hmemo) in Hrun.
    assert (Hins : forall n, truthy n = true ->
              pass_inv w (set_names <[entity_id := n]> s)).
    { intros n Hn. split; [exact Hdec|split; [exact Hviews|]].
      intros e m. cbn [set_names names]. rewrite lookup_insert.
      case_decide; [by intros [= <-]|apply Hnames]. }
    unfold live_friendly_name in Hrun.
    destruct (states_get w entity_id) as [current_state|].
    + destruct (truthy (dict_get (st_attributes current_state) ATTR_FRIENDLY_NAME))
        eqn:Hlive; [simplify_eq; auto|].
      destruct (_row_attributes_extract row FRIENDLY_NAME_JSON_EXTRACT) as [n|] eqn:Hn.
      * simplify_eq. split; [|done]. apply Hins. cbn [truthy].
        apply (json_extract_truthy _ _ _ Hn).
      * destruct (split_entity_id w entity_id); by simplify_eq.
    + destruct (_row_attributes_extract row FRIENDLY_NAME_JSON_EXTRACT) as [n|] eqn:Hn.
      * simplify_eq. split; [|done]. apply Hins. cbn [truthy].
        apply (json_extract_truthy _ _ _ Hn).
      * destruct (split_entity_id w entity_id); by simplify_eq.
Qed.

Lemma augment_inv w data entity_id row s data' s' :
  pass_inv w s ->
  augment w data entity_id row s = Ok (data', s') ->
  pass_inv w s' /\ event_cache s ⊆ event_cache s'.
Proof.
  intros Hinv Hrun. unfold augment, augment_from in Hrun. inv_run.
  repeat (case_match; inv_run); try done;
    repeat match goal with
    | Hi : pass_inv w ?s0, H : EntityNameCache_get w _ _ ?s0 = Ok _ |- _ =>
        destruct (EntityNameCache_get_inv _ _ _ _ _ _ Hi H) as [? ?]; clear H
    | Hi : pass_inv w ?s0, H : EventCache_get w _ ?s0 = Ok _ |- _ =>
        destruct (EventCache_get_inv _ _ _ _ _ Hi H) as (? & ? & _); clear H
    end;
    split; try done; repeat (etrans; [|eassumption]); try done;
    repeat match goal with H : event_cache _ = event_cache _ |- _ => rewrite H end; done.
Qed.

Lemma classify_continuous_inv w entity_id s r s' :
  pass_inv w s ->
  classify_continuous w entity_id s = Ok (r, s') ->
  pass_inv w s' /\ event_cache s' = event_cache s.
Proof.
  intros Hinv Hrun. unfold classify_continuous in Hrun. inv_run.
  repeat (case_match; inv_run); split; try done;
    by apply pass_inv_set_continuous_sensors.
Qed.

Lemma _humanify_row_inv w format_time row s out s' :
  pass_inv w s ->
  _humanify_row w format_time row s = Ok (out, s') ->
  pass_inv w s' /\ event_cache s ⊆ event_cache s'.
Proof.
  intros Hinv Hrun. unfold _humanify_row in Hrun.
  repeat (case_match; inv_run); try done;
    repeat match goal with
    | Hi : pass_inv w ?s0, H : classify_continuous w _ ?s0 = Ok _ |- _ =>
        destruct (classify_continuous_inv _ _ _ _ _ Hi H) as [? ?]; clear H
    | Hi : pass_inv w ?s0, H : EntityNameCache_get w _ _ ?s0 = Ok _ |- _ =>
        destruct (EntityNameCache_get_inv _ _ _ _ _ _ Hi H) as [? ?]; clear H
    | Hi : pass_inv w ?s0, H : EventCache_get w _ ?s0 = Ok _ |- _ =>
        destruct (EventCache_get_inv _ _ _ _ _ Hi H) as (? & ? & _); clear H
    | Hi : pass_inv w ?s0, H : augment w _ _ _ ?s0 = Ok _ |- _ =>
        destruct (augment_inv _ _ _ _ _ _ _ Hi H) as [? ?]; clear H
    end;
    split; try done; repeat (etrans; [|eassumption]); try done;
    repeat match goal with H : event_cache _ = event_cache _ |- _ => rewrite H end; done.
Qed.

Lemma process_row_inv w entities_filter format_time row s out s' :
  pass_inv w s ->
  process_row w entities_filter format_time row s = Ok (out, s') ->
  pass_inv w s' /\ event_cache s ⊆ event_cache s'.
Proof.
  intros Hinv Hrun. unfold process_row in Hrun. inv_run.
  match goal with H : yield_rows_step _ _ _ _ = Ok _ |- _ =>
    apply yield_rows_step_state in H; subst end.
  assert (Hinv' : pass_inv w (indexed row s)) by by apply pass_inv_set_context_lookup.
  case_match; inv_run; [|done].
  match goal with H : _humanify_row _ _ _ _ = Ok _ |- _ =>
    exact (_humanify_row_inv _ _ _ _ _ _ Hinv' H) end.
Qed.

Lemma humanify_rows_inv w entities_filter format_time rows s out s' :
  pass_inv w s ->
  humanify_rows w entities_filter format_time rows s = Ok (out, s') ->
  pass_inv w s' /\ event_cache s ⊆ event_cache s'.
Proof.
  revert s out. induction rows as [|row rows IH]; intros s out Hinv Hrun;
    cbn [humanify_rows] in Hrun; inv_run; [done|].
  match goal with H : process_row _ _ _ _ _ = Ok _ |- _ =>
    destruct (process_row_inv _ _ _ _ _ _ _ Hinv H) as [Hinv1 Hsub1] end.
  match goal with H : humanify_rows _ _ _ _ _ = Ok _ |- _ =>
    destruct (IH _ _ Hinv1 H) as [Hinv2 Hsub2] end.
  split; [exact Hinv2|by etrans].
Qed.

(** X11. [EventCache.get] builds one view per row for the pass: once a
    row has its view, every later call for the row, after any further rows
    of the pass, returns that view and changes nothing; in particular it
    decodes nothing, whatever the payload of the row. *)
Theorem event_cache_one_view_per_row (w : World) (entities_filter : option (string -> bool))
    (format_time : Row -> Value) (scanned later : list Row) (row : Row)
    (out0 out : list Dict) (s s1 s2 : PassState) (event : LazyEventPartialState) :
  humanify_rows w entities_filter format_time scanned initial_state = Ok (out0, s) ->
  EventCache_get w row s = Ok (event, s1) ->
  humanify_rows w entities_filter format_time later s1 = Ok (out, s2) ->
  EventCache_get w row s2 = Ok (event, s2).
Proof.
  intros Hscan Hget Hlater.
  destruct (humanify_rows_inv _ _ _ _ _ _ _ (pass_inv_initial w) Hscan) as [Hinv _].
  destruct (EventCache_get_inv _ _ _ _ _ Hinv Hget) as (Hinv1 & _ & Hrow & _).
  destruct (humanify_rows_inv _ _ _ _ _ _ _ Hinv1 Hlater) as [_ Hsub].
  unfold EventCache_get, bind, get_state, ret.
  by rewrite (lookup_weaken _ _ _ _ Hrow Hsub).
Qed.

Lemma event_cache_one_view_per_row_witness :
  let w := doorbell_world [] in
  let row := with_event_data "{}" (blank_row "doorbell_pressed" 1 (Some "c1")) in
  exists event s1,
    EventCache_get w row initial_state = Ok (event, s1)
    /\ EventCache_get w row s1 = Ok (event, s1).
Proof.
  intros w row.
  destruct (returned_Ok (EventCache_get w row initial_state)) as ([event s1] & Hget);
    [vm_compute; reflexivity|].
  exists event, s1. split; [exact Hget|].
  exact (event_cache_one_view_per_row w None (_row_time_fired_timestamp w) [] [] row [] []
           initial_state s1 s1 event eq_refl Hget eq_refl).
Defined.

(** X12. The two caches behind [EventCache.get] do not show in its result:
    in any state a pass can reach, the call returns the view of the row
    over what the decoder makes of its raw payload (the empty mapping when
    there is no payload), and it raises exactly when the row has a payload
    that the decoder rejects. *)
Theorem event_cache_transparent (w : World) (entities_filter : option (string -> bool))
    (format_time : Row -> Value) (scanned : list Row) (out0 : list Dict) (s : PassState)
    (row : Row) :
  humanify_rows w entities_filter format_time scanned initial_state = Ok (out0, s) ->
  match source_of row with
  | None => exists s', EventCache_get w row s = Ok (lazy_view row ∅, s')
  | Some source =>
      match json_loads w source with
      | Some d => exists s', EventCache_get w row s = Ok (lazy_view row d, s')
      | None => EventCache_get w row s = Raise JSONDecodeError
      end
  end.
Proof.
  intros Hscan.
  destruct (humanify_rows_inv _ _ _ _ _ _ _ (pass_inv_initial w) Hscan)
    as [((Hsound & _) & Hviews & _) _].
  unfold EventCache_get, bind, get_state, ret.
  destruct (event_cache s !! row) as [cached|] eqn:Hc.
  - destruct (Hviews _ _ Hc) as (d & -> & Hd). unfold payload_decodes in Hd.
    destruct (source_of row) as [source|]; [rewrite Hd|subst d]; eauto.
  - rewrite LazyEventPartialState_init_eq. unfold cache_hit.
    destruct (source_of row) as [source|]; [|eauto].
    destruct (event_data_cache s !! source) as [cached|] eqn:Hcached.
    + rewrite (Hsound _ _ Hcached).
      destruct (dict_truthy cached); unfold modify; eauto.
    + destruct (json_loads w source); unfold modify; eauto.
Qed.

Lemma event_cache_transparent_witness :
  let w := bare_world [(turn_on_payload, turn_on_dict)] [] in
  exists s',
    EventCache_get w turn_on_row (indexed turn_on_row initial_state)
    = Ok (lazy_view turn_on_row turn_on_dict, s').
Proof.
  intros w.
  assert (Hscan : exists out0,
            humanify_rows w None (_row_time_fired_timestamp w) [turn_on_row] initial_state
            = Ok (out0, indexed turn_on_row initial_state)).
  { exists []. reflexivity. }
  destruct Hscan as [out0 Hscan].
  exact (event_cache_transparent w None (_row_time_fired_timestamp w) [turn_on_row] out0
           (indexed turn_on_row initial_state) turn_on_row Hscan).
Defined.

(** X13. A name taken from the memo of [EntityNameCache] is never empty:
    in any state a pass can reach, every memoized name is truthy (the
    synthesized names, which can be empty for an empty object id, are never
    stored). *)
Theorem memoized_names_truthy (w : World) (entities_filter : option (string -> bool))
    (format_time : Row -> Value) (scanned : list Row) (out0 : list Dict) (s : PassState)
    (entity_id : string) (name : Value) :
  humanify_rows w entities_filter format_time scanned initial_state = Ok (out0, s) ->
  names s !! entity_id = Some name ->
  truthy name = true.
Proof.
  intros Hscan.
  destruct (humanify_rows_inv _ _ _ _ _ _ _ (pass_inv_initial w) Hscan) as [(_ & _ & Hn) _].
  apply Hn.
Qed.

Lemma memoized_names_truthy_witness :
  let w := bare_world [] [] in
  exists out0 s name,
    humanify_rows w None (_row_time_fired_timestamp w) [named_row] initial_state
    = Ok (out0, s)
    /\ names s !! "light.kitchen" = Some name
    /\ truthy name = true.
Proof.
  intros w.
  destruct (returned_Ok (humanify_rows w None (_row_time_fired_timestamp w) [named_row]
                                       initial_state)) as ([out0 s] & Hscan);
    [vm_compute; reflexivity|].
  destruct (names s !! "light.kitchen") as [name|] eqn:Hname.
  - exists out0, s, name. split; [exact Hscan|]. split; [exact Hname|].
    exact (memoized_names_truthy w None (_row_time_fired_timestamp w) [named_row] out0 s
             "light.kitchen" name Hscan Hname).
  - exfalso.
    assert (Hsome : match humanify_rows w None (_row_time_fired_timestamp w) [named_row]
                            initial_state with
                    | Ok (_, s) => names s !! "light.kitchen"
                    | Raise _ => None
                    end = Some (VStr "Kitchen Light")) by (vm_compute; reflexivity).
    rewrite Hscan, Hname in Hsome. discriminate Hsome.
Defined.

(** X14. In a pass, a raw payload string that decodes to a non-empty
    mapping is handed to the decoder at most once, however many rows carry
    it. *)
Theorem decode_at_most_once (w : World) (entities_filter : option (string -> bool))
    (format_time : Row -> Value) (rows : list Row) (out : list Dict) (s : PassState)
    (source : string) (d : Dict) :
  humanify_rows w entities_filter format_time rows initial_state = Ok (out, s) ->
  json_loads w source = Some d ->
  dict_truthy d = true ->
  (calls_for source s <= 1)%nat.
Proof.
  intros Hrun Hd Ht.
  destruct (decode_once_non_empty _ _ _ _ _ _ Hrun) as (_ & _ & Honce).
  exact (Honce _ _ Hd Ht).
Qed.

Lemma decode_at_most_once_witness :
  let w := bare_world [(turn_on_payload, turn_on_dict)] [] in
  exists out s,
    humanify_rows w None (_row_time_fired_timestamp w)
                  (scenario_rows ++ scenario_rows) initial_state = Ok (out, s)
    /\ (calls_for turn_on_payload s <= 1)%nat.
Proof.
  intros w.
  destruct (returned_Ok (humanify_rows w None (_row_time_fired_timestamp w)
                                       (scenario_rows ++ scenario_rows) initial_state))
    as ([out s] & Hrun); [vm_compute; reflexivity|].
  exists out, s. split; [exact Hrun|].
  apply (decode_at_most_once w None (_row_time_fired_timestamp w)
           (scenario_rows ++ scenario_rows) out s turn_on_payload turn_on_dict Hrun);
    vm_compute; reflexivity.
Defined.

(** ** Described events and log entries *)

(** X15. In a pass, for a row whose event type has a describer (and is not
    a state change), the describer is given the view of the row over its
    decoded payload, and the entry is the describer's, with the formatted
    time of the row under [when] and the registered domain under [domain],
    whatever the describer returned under these keys and whatever the
    augmenter added; the other fields that are no context keys are the
    describer's. *)
Theorem described_event_entry (w : World) (entities_filter : option (string -> bool))
    (format_time : Row -> Value) (scanned : list Row) (out0 : list Dict) (s : PassState)
    (row : Row) (domain : string) (describe_event : LazyEventPartialState -> option Dict)
    (out : list Dict) (s' : PassState) :
  humanify_rows w entities_filter format_time scanned initial_state = Ok (out0, s) ->
  event_type row <> EVENT_STATE_CHANGED ->
  external_events w !! event_type row = Some (domain, describe_event) ->
  _humanify_row w format_time row (indexed row s) = Ok (out, s') ->
  exists payload described data,
    payload_decodes w row payload
    /\ describe_event (lazy_view row payload) = Some described
    /\ out = [data]
    /\ data !! "when" = Some (format_time row)
    /\ data !! "domain" = Some (VStr domain)
    /\ (forall k, ~ In k ("when" :: "domain" :: AUGMENT_KEYS) ->
                  data !! k = described !! k).
Proof.
  intros Hscan Hev Hreg Hrun.
  destruct (humanify_rows_inv _ _ _ _ _ _ _ (pass_inv_initial w) Hscan) as [Hinv _].
  apply (pass_inv_set_context_lookup w (setdefault (context_id row) (Some row))) in Hinv.
  unfold _humanify_row in Hrun.
  apply String.eqb_neq in Hev. rewrite Hev, Hreg in Hrun. inv_run.
  match goal with H : EventCache_get _ _ _ = Ok _ |- _ =>
    destruct (EventCache_get_inv _ _ _ _ _ Hinv H) as (_ & _ & _ & payload & -> & Hpayload)
  end.
  destruct (describe_event _) as [described|] eqn:Hdescribed; inv_run.
  match goal with H : augment _ _ _ _ _ = Ok _ |- _ =>
    pose proof (fun k => augment_frame _ _ _ _ _ _ _ k H) as Hframe end.
  exists payload, described. eexists. split; [exact Hpayload|]. split; [exact Hdescribed|].
  split; [reflexivity|]. split; [|split].
  - rewrite Hframe; [|simpl; intros Hin;
      repeat (destruct Hin as [Hin|Hin]; [discriminate Hin|]); exact Hin].
    rewrite lookup_insert_ne by done. apply lookup_insert_eq.
  - rewrite Hframe; [|simpl; intros Hin;
      repeat (destruct Hin as [Hin|Hin]; [discriminate Hin|]); exact Hin].
    apply lookup_insert_eq.
  - intros k Hk. rewrite Hframe; [|intros Hin; apply Hk; simpl in *; tauto].
    rewrite !lookup_insert_ne; [done|..]; intros <-; apply Hk; simpl; tauto.
Qed.

Lemma described_event_entry_witness :
  let w := doorbell_world [] in
  let row := with_event_data "{}" (blank_row "doorbell_pressed" 1 (Some "c1")) in
  exists (out : list Dict) (s' : PassState) (payload described data : Dict),
    _humanify_row w (_row_time_fired_timestamp w) row (indexed row initial_state)
    = Ok (out, s')
    /\ payload_decodes w row payload
    /\ out = [data]
    /\ data !! "when" = Some (VNum 1)
    /\ data !! "domain" = Some (VStr "doorbell")
    /\ data !! "message" = described !! "message".
Proof.
  intros w row.
  destruct (returned_Ok (_humanify_row w (_row_time_fired_timestamp w) row
                                       (indexed row initial_state)))
    as ([out s'] & Hrun); [vm_compute; reflexivity|].
  destruct (described_event_entry w None (_row_time_fired_timestamp w) [] [] initial_state
              row "doorbell"
              (fun _ => Some (<["name" := VStr "Doorbell"]> (<["message" := VStr "pressed"]> ∅)))
              out s' eq_refl) as (payload & described & data & Hp & _ & Hout & Hw & Hd & Hk);
    [discriminate|reflexivity|exact Hrun|].
  exists out, s', payload, described, data.
  repeat (split; [assumption|]).
  apply Hk. simpl. intros Hin.
  repeat (destruct Hin as [Hin|Hin]; [discriminate Hin|]). exact Hin.
Defined.

Lemma logbook_entry_humanify w format_time row s s1 event described_id :
  event_type row = EVENT_LOGBOOK_ENTRY ->
  external_events w !! EVENT_LOGBOOK_ENTRY = None ->
  EventCache_get w row s = Ok (event, s1) ->
  dict_get (lz_data event) ATTR_DOMAIN = VNone ->
  dict_get (lz_data event) ATTR_ENTITY_ID = VStr described_id ->
  let emit := fun domain =>
    match augment w (logbook_entry_data (format_time row)
                       (dict_get (lz_data event) ATTR_NAME)
                       (dict_get (lz_data event) ATTR_MESSAGE)
                       domain (VStr described_id))
                  (VStr described_id) row s1 with
    | Ok (data, s2) => Ok ([data], s2)
    | Raise e => Raise e
    end in
  _humanify_row w format_time row s
  = match split_entity_id w described_id with
    | Ok parts => emit (VStr (fst parts))
    | Raise IndexError => emit VNone
    | Raise e => Raise e
    end.
Proof.
  intros Hev Hnone Hget Hdom Hid emit. subst emit.
  unfold _humanify_row. rewrite Hev, Hnone.
  cbn [String.eqb Ascii.eqb Bool.eqb EVENT_LOGBOOK_ENTRY EVENT_STATE_CHANGED
       EVENT_HOMEASSISTANT_START EVENT_HOMEASSISTANT_STOP].
  rewrite (bind_step _ _ _ _ _ Hget), Hdom, Hid.
  cbn [is_none negb andb str_of]. unfold logbook_entry_data.
  destruct (split_entity_id w described_id) as [parts|e]; [|destruct e]; reflexivity.
Qed.

Lemma logbook_fields_augmented w when payload domain described_id row s data s' :
  augment w (logbook_entry_data when (dict_get payload ATTR_NAME)
               (dict_get payload ATTR_MESSAGE) domain (VStr described_id))
          (VStr described_id) row s = Ok (data, s') ->
  logbook_fields data payload domain described_id.
Proof.
  intros Hrun.
  pose proof (fun k => augment_frame _ _ _ _ _ _ _ k Hrun) as Hframe.
  unfold logbook_fields.
  repeat split;
    (rewrite Hframe;
     [|simpl; intros Hin; repeat (destruct Hin as [Hin|Hin]; [discriminate Hin|]);
       exact Hin]); unfold logbook_entry_data.
  - rewrite lookup_insert_ne by done. apply lookup_insert_eq.
  - apply lookup_insert_eq.
  - rewrite !lookup_insert_ne by done. apply lookup_insert_eq.
  - rewrite !lookup_insert_ne by done. apply lookup_insert_eq.
Qed.

(** X16. For a user log entry whose payload names an entity id but no
    domain, the entry that is yielded has the domain part of the entity id
    as its domain, and the name, message and entity id of the payload.
    When splitting the id raises an index error the domain stays null and
    the entry is yielded all the same; any other exception of the split
    aborts the pass. *)
Theorem logbook_entry_domain_from_entity_id (w : World) (format_time : Row -> Value)
    (row : Row) (s s1 : PassState) (event : LazyEventPartialState) (described_id : string) :
  event_type row = EVENT_LOGBOOK_ENTRY ->
  external_events w !! EVENT_LOGBOOK_ENTRY = None ->
  EventCache_get w row s = Ok (event, s1) ->
  dict_get (lz_data event) ATTR_DOMAIN = VNone ->
  dict_get (lz_data event) ATTR_ENTITY_ID = VStr described_id ->
  let yields := fun domain =>
    forall out s',
      _humanify_row w format_time row s = Ok (out, s') ->
      exists data, out = [data] /\ logbook_fields data (lz_data event) domain described_id in
  match split_entity_id w described_id with
  | Ok parts => yields (VStr (fst parts))
  | Raise IndexError => yields VNone
  | Raise e => _humanify_row w format_time row s = Raise e
  end.
Proof.
  intros Hev Hnone Hget Hdom Hid yields. subst yields.
  pose proof (logbook_entry_humanify w format_time row s s1 event described_id
                Hev Hnone Hget Hdom Hid) as Hrow.
  cbv zeta in Hrow.
  assert (Hemit : forall domain out s',
            match augment w (logbook_entry_data (format_time row)
                               (dict_get (lz_data event) ATTR_NAME)
                               (dict_get (lz_data event) ATTR_MESSAGE)
                               domain (VStr described_id))
                          (VStr described_id) row s1 with
            | Ok (data, s2) => Ok ([data], s2)
            | Raise e => Raise e
            end = Ok (out, s') ->
            exists data, out = [data]
                         /\ logbook_fields data (lz_data event) domain described_id).
  { intros domain out s' Hemit.
    destruct (augment w _ (VStr described_id) row s1) as [[data s2]|] eqn:Haug; [|done].
    simplify_eq. exists data. split; [done|].
    eauto using logbook_fields_augmented. }
  destruct (split_entity_id w described_id) as [parts|e]; [|destruct e]; try exact Hrow;
    intros out s' Hrun; rewrite Hrow in Hrun; eauto.
Qed.

Lemma logbook_entry_domain_from_entity_id_witness :
  let w := bare_world [(note_payload, <["entity_id" := VStr "light.kitchen"]> ∅)] [] in
  exists out s' data,
    _humanify_row w (_row_time_fired_timestamp w) note_row initial_state = Ok (out, s')
    /\ out = [data]
    /\ data !! "domain" = Some (VStr "light").
Proof.
  intros w.
  destruct (returned_Ok (EventCache_get w note_row initial_state)) as ([event s1] & Hget);
    [vm_compute; reflexivity|].
  assert (Hdata : match EventCache_get w note_row initial_state with
                  | Ok (event, _) =>
                      (dict_get (lz_data event) ATTR_DOMAIN,
                       dict_get (lz_data event) ATTR_ENTITY_ID)
                  | Raise _ => (VNone, VNone)
                  end = (VNone, VStr "light.kitchen")) by (vm_compute; reflexivity).
  rewrite Hget in Hdata. injection Hdata as Hdom Hid.
  destruct (returned_Ok (_humanify_row w (_row_time_fired_timestamp w) note_row
                                       initial_state)) as ([out s'] & Hrun);
    [vm_compute; reflexivity|].
  destruct (logbook_entry_domain_from_entity_id w (_row_time_fired_timestamp w) note_row
              initial_state s1 event "light.kitchen" eq_refl eq_refl Hget Hdom Hid
              out s' Hrun) as (data & Hout & Hdomain & _).
  exists out, s', data. auto.
Defined.

(** ** Logging an entry and registering describers *)

(** X17. The event fired by the [logbook.log] service always names a
    domain or an entity id: the name, the rendered message and what the
    caller gave are passed on as they are, and the logbook's own domain is
    filled in exactly when the caller gave neither domain nor entity id. *)
Theorem log_message_names_domain_or_entity (render : string -> string)
    (name message : string) (domain entity_id : option string) :
  let fired := log_message render name message domain entity_id in
  fst fired = EVENT_LOGBOOK_ENTRY
  /\ snd fired !! ATTR_NAME = Some (VStr name)
  /\ snd fired !! ATTR_MESSAGE = Some (VStr (render message))
  /\ snd fired !! ATTR_ENTITY_ID = option_map VStr entity_id
  /\ snd fired !! ATTR_DOMAIN
     = option_map VStr (match entity_id, domain with
                        | None, None => Some DOMAIN
                        | _, _ => domain
                        end)
  /\ (is_Some (snd fired !! ATTR_DOMAIN) \/ is_Some (snd fired !! ATTR_ENTITY_ID)).
Proof.
  unfold log_message, async_log_entry.
  destruct entity_id as [e|], domain as [d|]; cbn [fst snd option_map];
    repeat split;
    rewrite ?lookup_insert_eq, ?lookup_insert_ne, ?lookup_insert_eq, ?lookup_insert_ne,
      ?lookup_insert_eq, ?lookup_insert_ne, ?lookup_insert_eq, ?lookup_empty by done;
    try done; try (left; by eexists); right; by eexists.
Qed.

Lemma _process_logbook_platform_snoc described domain event_name describe_callback registry :
  _process_logbook_platform (described ++ [(domain, event_name, describe_callback)]) registry
  = _async_describe_event domain event_name describe_callback
      (_process_logbook_platform described registry).
Proof. unfold _process_logbook_platform. by rewrite foldl_app. Qed.

(** X18. After a platform has registered its describers, an event type is
    described by the last registration the platform made for it, and an
    event type it did not register keeps the describer it had, if any. *)
Theorem last_registration_wins
    (described : list (string * string * (LazyEventPartialState -> option Dict)))
    (registry : Registry) (event_name : string) :
  _process_logbook_platform described registry !! event_name
  = match last_described event_name described with
    | Some registered => Some registered
    | None => registry !! event_name
    end.
Proof.
  induction described as [|[[domain name] describe_callback] described IH] using rev_ind;
    [done|].
  rewrite _process_logbook_platform_snoc.
  unfold last_described. rewrite foldl_app. cbn [foldl].
  unfold _async_describe_event. rewrite lookup_insert.
  destruct (String.eqb_spec name event_name) as [->|Hne].
  - by rewrite decide_True.
  - rewrite decide_False by done. exact IH.
Qed.

(** ** The two transport entry points *)

Lemma _get_events_both w start_day end_day entity_ids filters entities_filter context_id
    timestamp :
  ids_truthy entity_ids && ctx_truthy context_id = true ->
  _get_events w start_day end_day entity_ids filters entities_filter context_id timestamp
  = Raise AssertionError.
Proof. unfold _get_events. by intros ->. Qed.

(** X19. A request to the view with both a valid, non-empty list of
    entities and a non-empty context id never reaches the engine: the view
    answers with one of its refusals (an invalid date-time, the value
    error of the period, the overflow of the window arithmetic, an invalid
    end time), the last of which is the one for this combination. *)
Theorem view_refuses_entity_with_context_id (w : World) (b : Boundary) (self : LogbookView)
    (query : Query) (datetime : option string) (entity_ids_str : string)
    (entity_ids : list string) :
  opt_truthy (q_entity query) = Some entity_ids_str ->
  cv_entity_ids b entity_ids_str = Some entity_ids ->
  entity_ids <> [] ->
  ctx_truthy (q_context_id query) = true ->
  In (LogbookView_get w b self query datetime) VIEW_REFUSALS.
Proof.
  intros Hentity Hvalid Hne Hctx. unfold LogbookView_get, VIEW_REFUSALS.
  rewrite Hentity, Hvalid, Hctx.
  destruct entity_ids as [|id ids]; [done|]. cbn [ids_truthy andb].
  repeat case_match; simplify_eq; simpl; tauto.
Qed.

Lemma view_refuses_entity_with_context_id_witness :
  LogbookView_get (bare_world [] two_lights) digit_boundary (mkView None None)
                  (mkQuery None (Some "light.kitchen") None (Some "c1")) (Some "3")
  = Done (json_message "Can't combine entity with context_id" BAD_REQUEST).
Proof.
  destruct (view_refuses_entity_with_context_id (bare_world [] two_lights) digit_boundary
              (mkView None None) (mkQuery None (Some "light.kitchen") None (Some "c1"))
              (Some "3") "light.kitchen" ["light.kitchen"] eq_refl eq_refl)
    as [H|[H|[H|[H|[H|[]]]]]]; try discriminate; try reflexivity.
Defined.

Example view_overflow_before_refusal :
  LogbookView_get (bare_world [] two_lights)
                  (mkBoundary (parse_datetime digit_boundary) (as_utc digit_boundary) 5
                              (fun _ => Some 1000000) (cv_entity_ids digit_boundary))
                  (mkView None None)
                  (mkQuery (Some "1000000") (Some "light.kitchen") None (Some "c1"))
                  (Some "3")
  = Fails OverflowError.
Proof. reflexivity. Qed.






(** X22. Unlike the view, the websocket command does not refuse a message
    with both entities and a context id: when the times are valid and the
    start is not in the future, the assertion of the engine fails and no
    reply is sent. *)
Theorem ws_entity_with_context_id_fails (w : World) (b : Boundary) (filters : option Filters)
    (entities_filter : option (string -> bool)) (msg : Message) (start_time : Z)
    (entity_ids : list string) (context_id : string) :
  parse_datetime b (msg_start_time msg) = Some start_time ->
  as_utc b start_time <= utcnow w ->
  match opt_truthy (msg_end_time msg) with
  | Some end_time_str => is_Some (parse_datetime b end_time_str)
  | None => True
  end ->
  msg_entity_ids msg = Some entity_ids -> entity_ids <> [] ->
  msg_context_id msg = Some context_id -> context_id <> EmptyString ->
  ws_get_events w b filters entities_filter msg = Fails (EngineError AssertionError).
Proof.
  intros Hstart Hpast Hend Hids Hne Hctx Hnonempty. unfold ws_get_events. rewrite Hstart.
  apply Z.ltb_ge in Hpast.
  assert (Hboth : ids_truthy (msg_entity_ids msg) && ctx_truthy (msg_context_id msg) = true).
  { rewrite Hids, Hctx. destruct entity_ids; [done|]. by destruct context_id. }
  destruct (opt_truthy (msg_end_time msg)) as [end_time_str|].
  - destruct Hend as [parsed ->]. by rewrite Hpast, (_get_events_both _ _ _ _ _ _ _ _ Hboth).
  - by rewrite Hpast, (_get_events_both _ _ _ _ _ _ _ _ Hboth).
Qed.

Lemma ws_entity_with_context_id_fails_witness :
  ws_get_events (bare_world [] two_lights) digit_boundary None None
                (mkMessage 11 "0" None (Some ["light.kitchen"]) (Some "c1"))
  = Fails (EngineError AssertionError).
Proof.
  apply (ws_entity_with_context_id_fails (bare_world [] two_lights) digit_boundary None None
           (mkMessage 11 "0" None (Some ["light.kitchen"]) (Some "c1")) 0
           ["light.kitchen"] "c1"); try reflexivity; try discriminate; exact I.
Defined.
